(** * aiida-vasp: POTCAR storage — a shallow embedding

    Embeds [aiida_vasp/data/potcar.py] (the two node classes
    [PotcarFileData] and [PotcarData], their shared metadata mixin and the
    family upload entry point) and [aiida_vasp/commands/potcar.py] (the
    command line callbacks), and states the storage properties over them.
    What the sources call but do not contain ([ArchiveData], the reader and
    writer of files with several records) is modelled from the
    specification and marked as such where it is defined.

    Conventions
    - a Python [dict] of attributes is a [gmap string string];
    - an exception is a constructor of [Exception]; a computation that may
      raise returns a [Result];
    - code that changes the database threads it explicitly: [M Db A] is a
      function from the database to a result and the database left behind,
      also when the result is an exception (nothing is rolled back);
    - classes become modules, the mixin becomes a type class. *)

From Stdlib Require Import Ascii.
From stdpp Require Import gmap strings list fin_maps pretty sorting.

Open Scope string_scope.

(** ** Exceptions raised by the embedded code *)

Inductive Exception : Type :=
  | UniquenessError (msg : string)      (* aiida.common.exceptions *)
  | NotExistent                         (* QueryBuilder.one, no row *)
  | MultipleObjectsError                (* QueryBuilder.one, several rows *)
  | AttributeError (msg : string)
  | KeyError (key : string)
  | TypeError (msg : string)
  | IOError (path : string)
  | MissingParameter (msg : string)     (* click.MissingParameter *)
  | ContentUnavailable.                 (* no payload behind a wrapper *)

Inductive Result (A : Type) : Type :=
  | Return (a : A)
  | Raise (e : Exception).
Arguments Return {A} a.
Arguments Raise {A} e.

#[global] Instance Exception_eq_dec : EqDecision Exception.
Proof. solve_decision. Defined.
#[global] Instance Result_eq_dec {A} `{EqDecision A} : EqDecision (Result A).
Proof. solve_decision. Defined.

Definition is_Return {A} (r : Result A) : bool :=
  match r with Return _ => true | Raise _ => false end.

Definition is_UniquenessError {A} (r : Result A) : bool :=
  match r with Raise (UniquenessError _) => true | _ => false end.

#[global] Instance Result_ret : MRet Result := @Return.
#[global] Instance Result_bind : MBind Result := λ A B f r,
  match r with Return a => f a | Raise e => Raise e end.

(** ** State and exceptions *)

Definition M (S A : Type) : Type := S → Result A * S.

Definition ret {S A} (a : A) : M S A := λ s, (Return a, s).
Definition raise {S A} (e : Exception) : M S A := λ s, (Raise e, s).
Definition bind {S A B} (c : M S A) (k : A → M S B) : M S B := λ s,
  match c s with
  | (Return a, s') => k a s'
  | (Raise e, s') => (Raise e, s')
  end.
#[global] Instance M_ret {S} : MRet (M S) := @ret S.
#[global] Instance M_bind {S} : MBind (M S) := λ A B k c, bind c k.

(** A read-only computation that may raise, and one that cannot. *)
Definition query {S A} (f : S → Result A) : M S A := λ s, (f s, s).
Definition gets {S A} (f : S → A) : M S A := λ s, (Return (f s), s).
Definition modify {S} (f : S → S) : M S () := λ s, (Return (), f s).
(** [for x in xs: body(x)] *)
Fixpoint for_each {S A} (xs : list A) (body : A → M S ()) : M S () :=
  match xs with
  | [] => ret ()
  | x :: xs' => _ ← body x; for_each xs' body
  end.

(** ** Nodes

    An AiiDA node carries a primary key once stored and a dictionary of
    attributes. A [PotcarFileData] node (through [ArchiveData]) also
    carries [_filelist], the files it is to archive. *)

Record PotcarFileDataNode : Type := mkFileNode {
  file_pk : option nat;
  file_attrs : gmap string string;
  _filelist : list (string * string)
}.

Record PotcarDataNode : Type := mkNode {
  node_pk : option nat;
  node_attrs : gmap string string
}.

#[global] Instance PotcarFileDataNode_eq_dec : EqDecision PotcarFileDataNode.
Proof. solve_decision. Defined.
#[global] Instance PotcarDataNode_eq_dec : EqDecision PotcarDataNode.
Proof. solve_decision. Defined.

(** ** The database

    Stored nodes of the two classes live in separate tables: the query type
    strings ['data.vasp.potcar_file.'] and ['data.vasp.potcar.'] select
    disjoint sets of nodes. [links] is the table of DbLinks between stored
    nodes (pairs of primary keys). *)

Record Db : Type := mkDb {
  next_pk : nat;
  potcar_files : list PotcarFileDataNode;
  potcars : list PotcarDataNode;
  links : list (nat * nat)
}.

Definition empty_db : Db := mkDb 1 [] [] [].

(** ** QueryBuilder (aiida.orm.querybuilder), as far as the code uses it

    A filter [{'attributes.k': {'==': v}}] holds of a node when its
    attribute [k] is set and equal to [v]; [kwargs_match kwargs attrs] is the
    conjunction of the filters built from [kwargs]. *)

Definition kwargs_match (kwargs attrs : gmap string string) : Prop :=
  map_Forall (λ k v, attrs !! k = Some v) kwargs.

#[global] Instance kwargs_match_dec kwargs attrs : Decision (kwargs_match kwargs attrs).
Proof. unfold kwargs_match. apply _. Defined.

Module QueryBuilder.
Definition count {N} (rows : list N) : nat := length rows.
Definition one {N} (rows : list N) : Result N :=
  match rows with
  | [] => Raise NotExistent
  | [r] => Return r
  | _ :: _ :: _ => Raise MultipleObjectsError
  end.
End QueryBuilder.

(** ** PotcarMetadataMixin

    The mixin is written against what a node class provides: its attribute
    dictionary, the query over the stored nodes of the class, and the text
    of the class used in messages. *)

Class PotcarMetadataMixin (N : Type) : Type := {
  get_attrs : N → gmap string string;
  querybuild : Db → list N;
  class_str : string
}.

#[global] Instance PotcarFileData_mixin : PotcarMetadataMixin PotcarFileDataNode := {|
  get_attrs := file_attrs;
  querybuild := potcar_files;
  class_str := "<class 'aiida_vasp.data.potcar.PotcarFileData'>"
|}.

#[global] Instance PotcarData_mixin : PotcarMetadataMixin PotcarDataNode := {|
  get_attrs := node_attrs;
  querybuild := potcars;
  class_str := "<class 'aiida_vasp.data.potcar.PotcarData'>"
|}.

(** [dict.pop(key)] *)
Definition pop (key : string) (d : gmap string string)
  : Result (string * gmap string string) :=
  match d !! key with
  | Some v => Return (v, delete key d)
  | None => Raise (KeyError key)
  end.

Section Mixin.
Context {N : Type} `{PotcarMetadataMixin N}.

(** [Node.get_attr] *)
Definition get_attr (self : N) (key : string) : Result string :=
  match get_attrs self !! key with
  | Some v => Return v
  | None => Raise (AttributeError ("Attribute '" +:+ key +:+ "' does not exist"))
  end.

(** The rows selected by the query builder that [query_by_attrs] returns. *)
Definition query_by_attrs (kwargs : gmap string string) (db : Db) : list N :=
  filter (λ n, kwargs_match kwargs (get_attrs n)) (querybuild db).

Definition find (kwargs : gmap string string) (db : Db) : Result N :=
  QueryBuilder.one (query_by_attrs kwargs db).

Definition exists_ (kwargs : gmap string string) (db : Db) : bool :=
  bool_decide (1 ≤ QueryBuilder.count (query_by_attrs kwargs db))%nat.

Definition md5 (self : N) : Result string := get_attr self "md5".
Definition title (self : N) : Result string := get_attr self "title".
Definition functional (self : N) : Result string := get_attr self "functional".
Definition element (self : N) : Result string := get_attr self "element".
Definition symbol (self : N) : Result string := get_attr self "symbol".

Definition verify_unique (self : N) (db : Db) : Result () :=
  h ← md5 self;
  if exists_ {["md5" := h]} db then
    Raise (UniquenessError ("A " +:+ class_str +:+ " node already exists for this file."))
  else
    '(_, other_attrs) ← pop "md5" (get_attrs self);
    if exists_ other_attrs db then
      Raise (UniquenessError ("A " +:+ class_str +:+ " node with these attributes but a different file exists."))
    else Return ().
End Mixin.

(** ** The outside world

    [md5_file] (aiida.common.utils) and [PotcarSingle.from_file] (pymatgen)
    read a file by its path: both may fail, and what they return is fixed by
    the file's content. *)

Module PotcarSingle.
Record t : Type := mk {
  keywords : gmap string string;
  functional : string;
  element : string;
  symbol : string
}.
End PotcarSingle.

Class Files : Type := {
  md5_file : string → Result string;
  PotcarSingle_from_file : string → Result PotcarSingle.t
}.

(** [d[key]] *)
Definition getitem (d : gmap string string) (key : string) : Result string :=
  match d !! key with
  | Some v => Return v
  | None => Raise (KeyError key)
  end.

(** A value that may raise, inside a stateful computation. *)
Definition lift {S A} (r : Result A) : M S A := λ s, (r, s).

(** ** aiida.orm: what [store] and [_set_attr] do to a node that is not yet
    stored. A new node has no cached incoming links, so storing it adds no
    row to [links]. *)

Module Data.
Definition _set_attr (key value : string) : M PotcarDataNode () :=
  modify (λ self, mkNode (node_pk self) (<[key := value]> (node_attrs self))).

Definition store (self : PotcarDataNode) : M Db PotcarDataNode := λ db,
  let node := mkNode (Some (next_pk db)) (node_attrs self) in
  (Return node,
   mkDb (S (next_pk db)) (potcar_files db) (potcars db ++ [node]) (links db)).
End Data.

Module ArchiveData.
Definition _set_attr (key value : string) : M PotcarFileDataNode () :=
  modify (λ self, mkFileNode (file_pk self) (<[key := value]> (file_attrs self))
                             (_filelist self)).

(** Modelled from the spec: [ArchiveData.add_file] lives in
    aiida_vasp/data/archive.py, which is not among the sources. The content
    entity records the payload it is given ("archives a single immutable
    binary payload"), under the given name or the path itself. *)
Definition add_file (src_abs : string) (dst_filename : option string)
  : M PotcarFileDataNode () :=
  modify (λ self, mkFileNode (file_pk self) (file_attrs self)
                             (_filelist self ++ [(src_abs, default src_abs dst_filename)])).

(** Modelled from the spec: [ArchiveData.store], same file. The payload is
    archived and the node is stored as any Data node is. *)
Definition store (self : PotcarFileDataNode) : M Db PotcarFileDataNode := λ db,
  let node := mkFileNode (Some (next_pk db)) (file_attrs self) (_filelist self) in
  (Return node,
   mkDb (S (next_pk db)) (potcar_files db ++ [node]) (potcars db) (links db)).
End ArchiveData.

(** A family group, as far as the code reads it. *)
Record Group : Type := mkGroup {
  name : string;
  description : string
}.

(** ** PotcarData: enough metadata about a POTCAR file to identify it *)

Module PotcarData.
Definition _meta_attrs : list string :=
  ["md5"; "title"; "functional"; "element"; "symbol"].

Definition set_potcar_file_node (potcar_file_node : PotcarFileDataNode)
  : M PotcarDataNode () :=
  for_each _meta_attrs (λ attr_name,
    v ← lift (get_attr potcar_file_node attr_name);
    Data._set_attr attr_name v).

(** [PotcarData(potcar_file_node=file_node)]: the constructor hands the
    keyword to [set_potcar_file_node] on a new, empty node. *)
Definition new (potcar_file_node : PotcarFileDataNode) : Result PotcarDataNode :=
  match set_potcar_file_node potcar_file_node (mkNode None ∅) with
  | (Return _, self) => Return self
  | (Raise e, _) => Raise e
  end.


Definition store (self : PotcarDataNode) : M Db PotcarDataNode :=
  _ ← query (verify_unique self);
  Data.store self.

Definition get_or_create (file_node : PotcarFileDataNode)
  : M Db (PotcarDataNode * bool) :=
  h ← lift (md5 file_node);
  e ← gets (exists_ (N := PotcarDataNode) {["md5" := h]});
  if (e : bool) then
    node ← query (find (N := PotcarDataNode) {["md5" := h]});
    mret (node, false)
  else
    node ← lift (new file_node);
    node ← store node;
    mret (node, true).

(** The two class methods on families are a signature and a docstring: a
    Python function whose body is its docstring returns [None] whatever it
    is given, and touches nothing. [None] of Python is [None] here. *)
Definition get_potcar_group (group_name : string) : M Db (option Group) :=
  mret None.

Definition get_potcar_groups (filter_elements : option (list string))
    (user : option string) : M Db (option (list Group)) :=
  mret None.
End PotcarData.

(** ** PotcarFileData: a POTCAR file stored in the database *)

Module PotcarFileData.
Section WithFiles.
Context `{Files}.

Definition add_file (src_abs : string) (dst_filename : option string)
  : M PotcarFileDataNode () :=
  filelist ← gets _filelist;
  if bool_decide (filelist ≠ []) then
    raise (AttributeError "Can only hold one POTCAR file")
  else
    _ ← ArchiveData.add_file src_abs dst_filename;
    h ← lift (md5_file src_abs);
    _ ← ArchiveData._set_attr "md5" h;
    potcar ← lift (PotcarSingle_from_file src_abs);
    titel ← lift (getitem (PotcarSingle.keywords potcar) "TITEL");
    _ ← ArchiveData._set_attr "title" titel;
    _ ← ArchiveData._set_attr "functional" (PotcarSingle.functional potcar);
    _ ← ArchiveData._set_attr "element" (PotcarSingle.element potcar);
    ArchiveData._set_attr "symbol" (PotcarSingle.symbol potcar).

Definition set_file (filepath : string) : M PotcarFileDataNode () :=
  add_file filepath None.

(** [PotcarFileData(file=filepath)] *)
Definition new (filepath : string) : Result PotcarFileDataNode :=
  match set_file filepath (mkFileNode None ∅ []) with
  | (Return _, self) => Return self
  | (Raise e, _) => Raise e
  end.
End WithFiles.

Definition verify_unique (self : PotcarFileDataNode) (db : Db) : Result () :=
  h ← md5 self;
  if exists_ (N := PotcarFileDataNode) {["md5" := h]} db then
    Raise (UniquenessError "A PotcarFileData already exists for this file.")
  else
    '(_, other_attrs) ← pop "md5" (get_attrs self);
    if exists_ (N := PotcarFileDataNode) other_attrs db then
      Raise (UniquenessError "A PotcarFileData with these attributes but a different file exists.")
    else Return ().

Definition store (self : PotcarFileDataNode) : M Db PotcarFileDataNode :=
  _ ← PotcarData.get_or_create self;
  _ ← query (verify_unique self);
  ArchiveData.store self.

Section WithFiles.
Context `{Files}.

Definition get_or_create (filepath : string) : M Db (PotcarFileDataNode * bool) :=
  h ← lift (md5_file filepath);
  e ← gets (exists_ (N := PotcarFileDataNode) {["md5" := h]});
  if (e : bool) then
    node ← query (find (N := PotcarFileDataNode) {["md5" := h]});
    mret (node, false)
  else
    node ← lift (new filepath);
    node ← store node;
    mret (node, true).
End WithFiles.
End PotcarFileData.


(** ** Families: [upload_potcar_family] and the command line

    In data/potcar.py the family functions are written down as a signature
    and a docstring. A Python function whose body is its docstring returns
    [None] whatever it is given, and touches nothing. *)

(** [upload_potcar_family(folder, group_name, group_description,
    stop_if_existing=True)]: the value returned is [None], here the [None] of
    an optional pair of counts. *)
Definition upload_potcar_family (folder group_name : string)
    (group_description : option string) (stop_if_existing : bool)
  : M Db (option (nat * nat)) :=
  mret None.

(** The commands take the data class from [get_data_class('vasp.potcar')]
    (aiida_vasp/utils/aiida_utils.py, not among the sources) and ask three
    things of it: what [get_potcar_groups()] returns, what
    [get_potcar_group(name)] returns, and its attribute
    [upload_potcar_family]. The first two are Python values that may be
    [None]; the third is [None] here when the class has no such attribute. *)
Class PotcarDataCls : Type := {
  cls_name : string;
  get_potcar_groups : M Db (option (list Group));
  get_potcar_group : string → M Db (option Group);
  cls_upload_potcar_family :
    option (string → string → option string → bool → M Db (option (nat * nat)))
}.

(** The class registered as ['vasp.potcar'] is [PotcarData] of
    data/potcar.py: its two family methods are the ones above, and
    [upload_potcar_family] is a function of the module, not an attribute of
    the class. *)
Definition PotcarData_cls : PotcarDataCls := {|
  cls_name := "PotcarData";
  get_potcar_groups := PotcarData.get_potcar_groups None None;
  get_potcar_group := PotcarData.get_potcar_group;
  cls_upload_potcar_family := None
|}.

(** [[group.name for group in existing_groups]] *)
Definition group_names (existing_groups : option (list Group)) : Result (list string) :=
  match existing_groups with
  | Some groups => Return (name <$> groups)
  | None => Raise (TypeError "'NoneType' object is not iterable")
  end.

(** [group.description] *)
Definition get_description (group : option Group) : Result string :=
  match group with
  | Some group => Return (description group)
  | None => Raise (AttributeError "'NoneType' object has no attribute 'description'")
  end.

(** Python's [not value] for an optional string. *)
Definition not_value (value : option string) : bool :=
  match value with
  | None | Some "" => true
  | Some _ => false
  end.

Section Commands.
Context `{PotcarDataCls}.

(** The click callback of [--desc]; [ctx_params] is [ctx.params]. *)
Definition try_grab_description (ctx_params : gmap string string) (param : string)
    (value : option string) : M Db string :=
  group_name ← lift (getitem ctx_params "name");
  existing_groups ← get_potcar_groups;
  existing_group_names ← lift (group_names existing_groups);
  if not_value value then
    if bool_decide (group_name ∈ existing_group_names) then
      group ← get_potcar_group group_name;
      lift (get_description group)
    else
      raise (MissingParameter "A new group must be given a description.")
  else mret (default "" value).

(** [potcar_data_cls.upload_potcar_family] *)
Definition getattr_upload_potcar_family
  : Result (string → string → option string → bool → M Db (option (nat * nat))) :=
  match cls_upload_potcar_family with
  | Some upload => Return upload
  | None =>
      Raise (AttributeError ("type object '" +:+ cls_name +:+
                             "' has no attribute 'upload_potcar_family'"))
  end.

(** [uploadfamily]: the result is the line the command echoes. Unpacking
    [None] into two names raises TypeError. *)
Definition uploadfamily (path name : string) (desc : option string)
    (stop_if_existing : bool) : M Db string :=
  upload ← lift getattr_upload_potcar_family;
  counts ← upload path name desc stop_if_existing;
  match counts with
  | Some (num_found, num_uploaded) =>
      mret ("POTCAR files found: " +:+ pretty num_found +:+
            ". New files uploaded: " +:+ pretty num_uploaded)
  | None => raise (TypeError "'NoneType' object is not iterable")
  end.
End Commands.

(** ** Several records in one file

    Modelled from the spec: PotcarIo and MultiPotcarIo live in
    aiida_vasp/io/potcar.py, which is not among the sources (only their test
    is). Sections 3, 4.5, 4.6 and 6 of the specification are followed: a
    wrapper has a hash and, when the payload can be reached, its content;
    [write] appends the payloads to the destination in the order given and
    fails with ContentUnavailable on a wrapper without content; [read] cuts
    the text after every end-of-record marker and wraps each piece, whose
    hash is the digest of its bytes. The marker and the digest are
    parameters. Text after the last marker is no record. *)

Module MultiRecordIO.
#[local] Open Scope list_scope.

Record RecordWrapper : Type := mkWrapper {
  hash : string;
  content : option (list ascii)
}.

Section Format.
Context (end_marker : list ascii) (digest : list ascii → string).

Fixpoint write_to (wrappers : list RecordWrapper) (destination : list ascii)
  : Result (list ascii) :=
  match wrappers with
  | [] => Return destination
  | w :: wrappers' =>
      match content w with
      | Some payload => write_to wrappers' (destination ++ payload)
      | None => Raise ContentUnavailable
      end
  end.

Definition write (wrappers : list RecordWrapper) : Result (list ascii) :=
  write_to wrappers [].

(** [current] is the part of the record read so far. *)
Fixpoint split_records (current text : list ascii) : list (list ascii) :=
  match text with
  | [] => []
  | c :: text' =>
      if bool_decide (end_marker `suffix_of` current ++ [c])
      then (current ++ [c]) :: split_records [] text'
      else split_records (current ++ [c]) text'
  end.

(** [RecordIO.resolve] on raw content. *)
Definition resolve (payload : list ascii) : RecordWrapper :=
  mkWrapper (digest payload) (Some payload).

Definition read (text : list ascii) : list RecordWrapper :=
  resolve <$> split_records [] text.

(** The payload format: a text that ends with the end-of-record marker and
    in which no shorter beginning ends with it. *)
Definition is_payload (payload : list ascii) : Prop :=
  payload ≠ [] ∧ end_marker `suffix_of` payload ∧
  ∀ q, q ≠ [] → q `prefix_of` payload → end_marker `suffix_of` q → q = payload.

(** The same, as a check that runs: reading [payload] after [current], the
    marker is complete at the last character and not before. *)
Fixpoint ends_at_last (current payload : list ascii) : bool :=
  match payload with
  | [] => false
  | c :: payload' =>
      match payload' with
      | [] => bool_decide (end_marker `suffix_of` current ++ [c])
      | _ :: _ =>
          negb (bool_decide (end_marker `suffix_of` current ++ [c]))
          && ends_at_last (current ++ [c]) payload'
      end
  end.

(** A wrapper with its payload at hand, whose hash is the payload's. *)
Definition has_content (w : RecordWrapper) : Prop :=
  ∃ payload, content w = Some payload ∧ is_payload payload ∧ hash w = digest payload.
End Format.
End MultiRecordIO.

(** ** Shorthands used in the statements *)

(** The attribute dictionary [set_potcar_file_node] and [add_file] build. *)
Definition meta_dict (h t f e s : string) : gmap string string :=
  <["symbol" := s]> (<["element" := e]> (<["functional" := f]>
    (<["title" := t]> (<["md5" := h]> ∅)))).

(** The database after [store] has appended a node. *)
Definition db_add_potcar (db : Db) (node : PotcarDataNode) : Db :=
  mkDb (S (next_pk db)) (potcar_files db) (potcars db ++ [node]) (links db).

Definition db_add_potcar_file (db : Db) (node : PotcarFileDataNode) : Db :=
  mkDb (S (next_pk db)) (potcar_files db ++ [node]) (potcars db) (links db).

(** ** The two uniqueness conflicts, in the specification's words

    A record carries exactly the five metadata attributes. Conflict (a): a
    stored record of the same class has the same hash. Conflict (b): a stored
    record of the same class has the same title, functional, element and
    symbol, and another hash. *)

Section Conflicts.
Context {N : Type} `{PotcarMetadataMixin N}.

Definition is_record (self : N) : Prop :=
  dom (get_attrs self) = list_to_set PotcarData._meta_attrs.

Definition same_hash_stored (self : N) (db : Db) : Prop :=
  ∃ r : N, r ∈ querybuild db ∧ md5 r = md5 self.

Definition same_metadata (r self : N) : Prop :=
  title r = title self ∧ functional r = functional self ∧
  element r = element self ∧ symbol r = symbol self.

Definition same_metadata_other_hash (self : N) (db : Db) : Prop :=
  ∃ r : N, r ∈ querybuild db ∧ same_metadata r self ∧ md5 r ≠ md5 self.

Definition uniqueness_conflict (self : N) (db : Db) : Prop :=
  same_hash_stored self db ∨ same_metadata_other_hash self db.
End Conflicts.

(** What stands in the way of the PotcarData that [PotcarFileData.store]
    gets or creates first: no PotcarData is stored under the md5 of the file
    node, so that one is made from it, and a stored PotcarData has its title,
    functional, element and symbol. *)
Definition shadow_conflict (self : PotcarFileDataNode) (db : Db) : Prop :=
  let shadow := mkNode None (file_attrs self) in
  ¬ same_hash_stored shadow db ∧ same_metadata_other_hash shadow db.

(** ** Reading a POTCAR file into the database

    Modelled from the spec: the ingest of section 4.3, with no family given.
    The function that chains the two steps lives in aiida_vasp/io/potcar.py,
    which is not among the sources; the chain is the one the docstring of
    data/potcar.py draws: get or create the PotcarFileData for the file, then
    get or create the corresponding PotcarData and return it. The two flags
    say which of the two nodes this call created. *)

Definition ingest `{Files} (filepath : string) : M Db (PotcarDataNode * bool * bool) :=
  '(file_node, file_created) ← PotcarFileData.get_or_create filepath;
  '(node, created) ← PotcarData.get_or_create file_node;
  mret (node, file_created, created).

(** ** A small world to run the code in

    Three POTCAR files as in the test data (As, Ga, In_d), a copy of the As
    file under another path, and a file with the As header but another
    content, hence another md5. *)

Module Fixture.
Definition potcar_single (el symbol : string) : PotcarSingle.t :=
  PotcarSingle.mk {["TITEL" := "PAW_PBE " +:+ symbol]} "PBE" el symbol.

Definition contents : list (string * (string * PotcarSingle.t)) :=
  [("potcar/As/POTCAR", ("md5-As", potcar_single "As" "As"));
   ("potcar/Ga/POTCAR", ("md5-Ga", potcar_single "Ga" "Ga"));
   ("potcar/In_d/POTCAR", ("md5-In_d", potcar_single "In" "In_d"));
   ("copy/As/POTCAR", ("md5-As", potcar_single "As" "As"));
   ("edited/As/POTCAR", ("md5-As-edited", potcar_single "As" "As"))].

Definition read (path : string) : Result (string * PotcarSingle.t) :=
  match list_find (λ entry, entry.1 = path) contents with
  | Some (_, (_, file)) => Return file
  | None => Raise (IOError path)
  end.

Definition files : Files := {|
  md5_file path := file ← read path; Return file.1;
  PotcarSingle_from_file path := file ← read path; Return file.2
|}.

Definition As_attrs : gmap string string :=
  meta_dict "md5-As" "PAW_PBE As" "PBE" "As" "As".
Definition As_file_node : PotcarFileDataNode :=
  mkFileNode None As_attrs [("potcar/As/POTCAR", "potcar/As/POTCAR")].
Definition As_edited_file_node : PotcarFileDataNode :=
  mkFileNode None (meta_dict "md5-As-edited" "PAW_PBE As" "PBE" "As" "As")
                  [("edited/As/POTCAR", "edited/As/POTCAR")].

(** The database after the As file was read in: PotcarData 1, file node 2. *)
Definition db_As : Db :=
  mkDb 3 [mkFileNode (Some 2) As_attrs [("potcar/As/POTCAR", "potcar/As/POTCAR")]]
         [mkNode (Some 1) As_attrs] [].


Definition Ga_attrs : gmap string string :=
  meta_dict "md5-Ga" "PAW_PBE Ga" "PBE" "Ga" "Ga".

(** The database after the Ga file was read in as well. *)
Definition db_As_Ga : Db :=
  mkDb 5 [mkFileNode (Some 2) As_attrs [("potcar/As/POTCAR", "potcar/As/POTCAR")];
          mkFileNode (Some 4) Ga_attrs [("potcar/Ga/POTCAR", "potcar/Ga/POTCAR")]]
         [mkNode (Some 1) As_attrs; mkNode (Some 3) Ga_attrs] [].

(** The database with the As file node and no PotcarData (the PotcarData
    removed or never imported). *)
Definition db_As_file_only : Db :=
  mkDb 3 [mkFileNode (Some 2) As_attrs [("potcar/As/POTCAR", "potcar/As/POTCAR")]]
         [] [].

(** The database with the PotcarData of the As file and no file node (the
    PotcarData imported without its file). *)
Definition db_As_data_only : Db := mkDb 2 [] [mkNode (Some 1) As_attrs] [].

(** Two payloads that end with the marker END, and their wrappers; the
    digest of a text is the text itself. *)
Definition end_marker : list ascii := String.list_ascii_of_string "END".
Definition digest (payload : list ascii) : string := String.string_of_list_ascii payload.
Definition payload_As : list ascii := String.list_ascii_of_string "TITEL = PAW As;END".
Definition payload_Ga : list ascii := String.list_ascii_of_string "TITEL = PAW Ga;END".
Definition wrappers : list MultiRecordIO.RecordWrapper :=
  [MultiRecordIO.mkWrapper (digest payload_Ga) (Some payload_Ga);
   MultiRecordIO.mkWrapper (digest payload_As) (Some payload_As)].
End Fixture.

(** ** The uniqueness the module asks of the database

    "The file hash attribute of PotcarFileData is unique in the Db", and the
    same for PotcarData (docstring of data/potcar.py): at most one stored
    node of a class under any md5. *)

Definition hash_unique (N : Type) `{PotcarMetadataMixin N} (db : Db) : Prop :=
  ∀ h, (length (query_by_attrs (N := N) {["md5" := h]} db) ≤ 1)%nat.

Definition db_hash_unique (db : Db) : Prop :=
  hash_unique PotcarFileDataNode db ∧ hash_unique PotcarDataNode db.

(** ** INCAR files: aiida_vasp/utils/io/incar/_write.py

    A value of the dictionary is a string, a boolean, an integer, a float,
    [None] or a sequence of values. The floats and the text Python's
    ['{}'.format] gives for one are parameters, and so is numpy's answer for
    a sequence: [ndim items] is [len(np.array(items).shape)]. Strings and
    numbers are scalars for [np.isscalar]; [None] is not, and
    [np.array(None)] has no dimension. *)

Module Incar.
(** [[f(i) for i in items]], the first exception ending it. *)
Definition for_in {A B : Type} (f : A → Result B) : list A → Result (list B) :=
  fix for_in (items : list A) : Result (list B) :=
    match items with
    | [] => Return []
    | i :: items' =>
        match f i with
        | Raise e => Raise e
        | Return r =>
            match for_in items' with
            | Raise e => Raise e
            | Return rs => Return (r :: rs)
            end
        end
    end.

Section Numpy.
Context {real : Type}.

Inductive Value : Type :=
  | VStr (s : string)
  | VBool (b : bool)
  | VInt (z : Z)
  | VFloat (x : real)
  | VNone
  | VSeq (items : list Value).

Context (format_real : real → string) (ndim : list Value → nat).

(** [sep.join(items)], [index] counting the items already joined: an item
    that is [None] raises TypeError. *)
Fixpoint join (sep : string) (index : nat) (items : list (option string))
  : Result string :=
  match items with
  | [] => Return ""
  | None :: _ =>
      Raise (TypeError ("sequence item " +:+ pretty index +:+
                        ": expected string, NoneType found"))
  | Some s :: items' =>
      match items' with
      | [] => Return s
      | _ :: _ => rest ← join sep (S index) items'; Return (s +:+ sep +:+ rest)
      end
  end.

(** The value returned is [None] when no branch sets [result]. *)
Fixpoint _incarify (value : Value) : Result (option string) :=
  match value with
  | VStr s => Return (Some s)
  | VSeq items =>
      let dim := ndim items in
      if decide (dim = 1%nat) then
        rs ← for_in _incarify items; s ← join " " 0 rs; Return (Some s)
      else if decide (dim = 2%nat) then
        rs ← for_in _incarify items; s ← join (String "010" "") 0 rs; Return (Some s)
      else if decide (2 < dim)%nat then
        Raise (TypeError "you are trying to input a more than 2-dimensional array to VASP.Not sure what to do...")
      else Return None
  | VNone => Return None
  | VBool b => Return (Some (if b then ".True." else ".False."))
  | VInt z => Return (Some (pretty z))
  | VFloat x => Return (Some (format_real x))
  end.

(** [str.upper] on ASCII text. *)
Definition upper_ascii (c : ascii) : ascii :=
  let n := nat_of_ascii c in
  if bool_decide (97 ≤ n ≤ 122)%nat then ascii_of_nat (n - 32) else c.

Fixpoint upper (s : string) : string :=
  match s with
  | EmptyString => EmptyString
  | String c s' => String (upper_ascii c) (upper s')
  end.

(** ['{}'.format(x)] of what [_incarify] returns. *)
Definition format_result (r : option string) : string := default "None" r.

Definition _incar_item (key : string) (value : Value) : Result string :=
  r ← _incarify value;
  Return (upper key +:+ " = " +:+ format_result r).

(** [sorted(incar_dict.iteritems(), key=lambda t: t)]: the keys of a
    dictionary differ, so the pairs are ordered by their keys. *)
Definition item_le (a b : string * Value) : Prop := String.leb a.1 b.1 = true.

#[global] Instance item_le_dec a b : Decision (item_le a b).
Proof. unfold item_le. apply _. Defined.

Definition sorted_items (incar_dict : gmap string Value) : list (string * Value) :=
  merge_sort item_le (map_to_list incar_dict).

Fixpoint add_items (items : list (string * Value)) (incar_content : string)
  : Result string :=
  match items with
  | [] => Return incar_content
  | (key, value) :: items' =>
      item ← _incar_item key value;
      add_items items' (incar_content +:+ item +:+ String "010" "")
  end.

Definition dict_to_incar (incar_dict : gmap string Value) : Result string :=
  add_items (sorted_items incar_dict) "".

(** The text of a value that can be written. *)
Definition text_of (value : Value) : string :=
  match _incarify value with
  | Return r => format_result r
  | Raise _ => ""
  end.

Definition line_of (item : string * Value) : string :=
  upper item.1 +:+ " = " +:+ text_of item.2 +:+ String "010" "".
End Numpy.

(** The text of a row of integers: [' '.join] of their decimals. *)
Definition row_text (row : list Z) : string := String.concat " " (pretty <$> row).
End Incar.

(** A small INCAR dictionary. Floats are given by their text; the sequences
    are regular, and for them numpy's [ndim] is the depth of the nesting. *)

Module Incar_fixture.
Import Incar.

Fixpoint depth (value : @Value string) : nat :=
  match value with
  | VSeq items => S (match items with [] => 0 | i :: _ => depth i end)
  | _ => 0
  end.

Definition ndim (items : list (@Value string)) : nat := depth (VSeq items).

Definition incar_dict : gmap string (@Value string) :=
  list_to_map
    [("system", VStr "InAs"); ("encut", VInt 350); ("lreal", VBool false);
     ("sigma", VFloat "0.05"); ("magmom", VSeq [VInt 1; VInt (-1)]);
     ("dipol", VSeq [VSeq [VInt 0; VInt 1]; VSeq [VInt 2; VInt 3]])].

Definition cube : @Value string := VSeq [VSeq [VSeq [VInt 1]]].
End Incar_fixture.
(** * Properties *)

(** ** Running monadic code *)

Ltac unfold_M :=
  unfold mbind, mret, M_bind, M_ret, Result_bind, Result_ret,
         bind, ret, raise, query, gets, lift, modify in *.

(** ** Queries of the mixin *)

Section MixinFacts.
Context {N : Type} `{PotcarMetadataMixin N}.

Lemma elem_of_query_by_attrs kwargs db (n : N) :
  n ∈ query_by_attrs kwargs db ↔
  n ∈ querybuild db ∧ kwargs_match kwargs (get_attrs n).
Proof. unfold query_by_attrs. rewrite list_elem_of_filter. tauto. Qed.

Lemma exists_true kwargs db :
  exists_ kwargs db = true ↔
  ∃ n : N, n ∈ querybuild db ∧ kwargs_match kwargs (get_attrs n).
Proof.
  unfold exists_, QueryBuilder.count. rewrite bool_decide_eq_true.
  split.
  - destruct (query_by_attrs kwargs db) as [|n rows] eqn:E; simpl; [lia|].
    intros _. exists n. apply elem_of_query_by_attrs. rewrite E. left.
  - intros (n & Hn). apply elem_of_query_by_attrs in Hn.
    destruct (query_by_attrs kwargs db); simpl; [inversion Hn | lia].
Qed.

Lemma exists_false kwargs db :
  exists_ kwargs db = false ↔ query_by_attrs (N := N) kwargs db = [].
Proof.
  unfold exists_, QueryBuilder.count. rewrite bool_decide_eq_false.
  destruct (query_by_attrs kwargs db); simpl; split; (done || lia).
Qed.

Lemma exists_of_single kwargs db (n : N) :
  query_by_attrs kwargs db = [n] → exists_ kwargs db = true.
Proof.
  intros E. unfold exists_, QueryBuilder.count. rewrite E.
  by apply bool_decide_eq_true.
Qed.

Lemma find_Return kwargs db (n : N) :
  find kwargs db = Return n ↔ query_by_attrs kwargs db = [n].
Proof.
  unfold find, QueryBuilder.one.
  destruct (query_by_attrs kwargs db) as [|r [|r' rows]]; split; congruence.
Qed.

Lemma kwargs_match_md5 h (attrs : gmap string string) :
  kwargs_match {["md5" := h]} attrs ↔ attrs !! "md5" = Some h.
Proof. unfold kwargs_match. by rewrite map_Forall_singleton. Qed.

Lemma md5_Return (self : N) h :
  md5 self = Return h ↔ get_attrs self !! "md5" = Some h.
Proof.
  unfold md5, get_attr. destruct (get_attrs self !! "md5"); split; congruence.
Qed.
End MixinFacts.

(** C7. [find] returns the single matching record when exactly one stored
    record of the class matches the attribute filter, raises NotExistent
    (NotFound) when none matches and MultipleObjectsError (AmbiguousMatch)
    when more than one matches. The number of matches is the number of
    stored nodes of the class whose attributes satisfy every filter. *)
Theorem find_one_none_many {N : Type} `{PotcarMetadataMixin N}
    (kwargs : gmap string string) (db : Db) :
  let matching :=
    filter (λ n : N, kwargs_match kwargs (get_attrs n)) (querybuild db) in
  (length matching = 1 →
     ∃ n, find kwargs db = Return n ∧
          n ∈ querybuild db ∧ kwargs_match kwargs (get_attrs n) ∧
          ∀ n', n' ∈ querybuild db → kwargs_match kwargs (get_attrs n') → n' = n)
  ∧ (length matching = 0 → find (N := N) kwargs db = Raise NotExistent)
  ∧ (1 < length matching → find (N := N) kwargs db = Raise MultipleObjectsError).
Proof.
  intros matching.
  assert (Hq : query_by_attrs (N := N) kwargs db = matching) by reflexivity.
  unfold find, QueryBuilder.one. rewrite Hq.
  split; [|split].
  - destruct matching as [|n [|n' rows]] eqn:E; simpl; try lia. intros _.
    exists n. split; [done|].
    assert (Hin : ∀ x, x ∈ matching ↔
              x ∈ querybuild db ∧ kwargs_match kwargs (get_attrs x)).
    { intros x. subst matching. rewrite list_elem_of_filter. tauto. }
    rewrite E in Hin. split; [|split].
    + apply Hin. left.
    + apply Hin. left.
    + intros n' Hn' Hm. assert (n' ∈ [n]) as Hx by (apply Hin; done).
      by apply list_elem_of_singleton in Hx.
  - destruct matching; simpl; [done | lia].
  - destruct matching as [|n [|n' rows]]; simpl; (done || lia).
Qed.

(** ** The uniqueness check *)

Ltac in_meta_attrs := unfold PotcarData._meta_attrs; repeat constructor.

Section VerifyUnique.
Context {N : Type} `{PotcarMetadataMixin N}.

Lemma is_record_lookup (self : N) k :
  is_record self →
  k ∈ PotcarData._meta_attrs → ∃ v, get_attrs self !! k = Some v.
Proof.
  unfold is_record. intros Hdom Hk.
  assert (k ∈ dom (get_attrs self)) as Hin.
  { rewrite Hdom. by apply elem_of_list_to_set. }
  by apply elem_of_dom in Hin.
Qed.

Lemma is_record_keys (self : N) k v :
  is_record self → get_attrs self !! k = Some v → k ∈ PotcarData._meta_attrs.
Proof.
  unfold is_record. intros Hdom Hk.
  assert (k ∈ dom (get_attrs self)) as Hin by (apply elem_of_dom; eauto).
  rewrite Hdom in Hin. by apply elem_of_list_to_set in Hin.
Qed.

Lemma get_attr_eq (r self : N) k v :
  get_attrs self !! k = Some v →
  get_attr r k = get_attr self k ↔ get_attrs r !! k = Some v.
Proof.
  intros Hs. unfold get_attr. rewrite Hs.
  destruct (get_attrs r !! k); split; congruence.
Qed.

Lemma kwargs_match_other_attrs (r self : N) :
  is_record self →
  kwargs_match (delete "md5" (get_attrs self)) (get_attrs r) ↔ same_metadata r self.
Proof.
  intros Hrec. unfold kwargs_match, same_metadata, title, functional, element, symbol.
  destruct (is_record_lookup self "title" Hrec) as [vt Ht]; [in_meta_attrs|].
  destruct (is_record_lookup self "functional" Hrec) as [vf Hf]; [in_meta_attrs|].
  destruct (is_record_lookup self "element" Hrec) as [ve He]; [in_meta_attrs|].
  destruct (is_record_lookup self "symbol" Hrec) as [vs Hs]; [in_meta_attrs|].
  rewrite (get_attr_eq r self _ _ Ht), (get_attr_eq r self _ _ Hf),
          (get_attr_eq r self _ _ He), (get_attr_eq r self _ _ Hs).
  split.
  - intros Hall. repeat split; apply Hall; by rewrite lookup_delete_ne.
  - intros (Et & Ef & Ee & Es) k v Hk.
    apply lookup_delete_Some in Hk as [Hne Hk].
    pose proof (is_record_keys self k v Hrec Hk) as Hin.
    unfold PotcarData._meta_attrs in Hin.
    repeat (apply elem_of_cons in Hin as [->|Hin]); try congruence.
    by apply elem_of_nil in Hin.
Qed.

Lemma exists_md5_same_hash (self : N) db h :
  md5 self = Return h →
  exists_ (N := N) {["md5" := h]} db = true ↔ same_hash_stored self db.
Proof.
  intros Hh. rewrite exists_true. unfold same_hash_stored. rewrite Hh.
  split; intros (r & Hr & Hm); exists r; (split; [done|]).
  - by apply md5_Return, kwargs_match_md5.
  - by apply kwargs_match_md5, md5_Return.
Qed.

Lemma conflict_cases (self : N) db :
  uniqueness_conflict self db ↔
  same_hash_stored self db ∨
  ∃ r : N, r ∈ querybuild db ∧ same_metadata r self.
Proof.
  unfold uniqueness_conflict, same_metadata_other_hash, same_hash_stored.
  split.
  - intros [?|(r & ? & ? & _)]; [by left | right; eauto].
  - intros [?|(r & Hr & Hm)]; [by left|].
    destruct (decide (md5 r = md5 self)); [left | right]; eauto.
Qed.

(** What [verify_unique] of the mixin returns on a record. *)
Lemma verify_unique_conflict (self : N) db :
  is_record self →
  (uniqueness_conflict self db →
     ∃ msg, verify_unique self db = Raise (UniquenessError msg)) ∧
  (¬ uniqueness_conflict self db → verify_unique self db = Return ()).
Proof.
  intros Hrec. rewrite conflict_cases.
  destruct (is_record_lookup self "md5" Hrec) as [h Hh]; [in_meta_attrs|].
  assert (md5 self = Return h) as Hmd5 by by apply md5_Return.
  unfold verify_unique, pop. rewrite Hmd5, Hh. unfold_M.
  destruct (exists_ {["md5" := h]} db) eqn:Ea.
  { split; [eauto|]. intros Hn. exfalso. apply Hn. left.
    by apply (exists_md5_same_hash self db h). }
  assert (¬ same_hash_stored self db) as Hna.
  { rewrite <- (exists_md5_same_hash self db h Hmd5). congruence. }
  destruct (exists_ (delete "md5" (get_attrs self)) db) eqn:Eb.
  - split; [eauto|]. intros Hn. exfalso. apply Hn. right.
    apply exists_true in Eb as (r & Hr & Hm). exists r. split; [done|].
    by apply kwargs_match_other_attrs.
  - split; [|done]. intros [?|(r & Hr & Hm)]; [done|].
    assert (exists_ (delete "md5" (get_attrs self)) db = true); [|congruence].
    apply exists_true. exists r. split; [done|].
    by apply kwargs_match_other_attrs.
Qed.
(** On a record the check raises nothing but UniquenessError. *)
Lemma verify_unique_Raise (self : N) db e :
  is_record self → verify_unique self db = Raise e → ∃ msg, e = UniquenessError msg.
Proof.
  intros Hrec.
  destruct (is_record_lookup self "md5" Hrec) as [h Hh]; [in_meta_attrs|].
  assert (md5 self = Return h) as Hmd5 by by apply md5_Return.
  unfold verify_unique, pop. rewrite Hmd5, Hh. unfold_M.
  destruct (exists_ {["md5" := h]} db); [intros [= <-]; eauto|].
  destruct (exists_ (delete "md5" (get_attrs self)) db); [intros [= <-]; eauto|done].
Qed.
End VerifyUnique.

(** ** Running the constructors, [store] and [get_or_create] *)

Lemma meta_dict_lookup h t f e s :
  meta_dict h t f e s !! "md5" = Some h ∧
  meta_dict h t f e s !! "title" = Some t ∧
  meta_dict h t f e s !! "functional" = Some f ∧
  meta_dict h t f e s !! "element" = Some e ∧
  meta_dict h t f e s !! "symbol" = Some s.
Proof. unfold meta_dict. by repeat split; simplify_map_eq. Qed.

Lemma meta_dict_dom h t f e s :
  dom (meta_dict h t f e s) = list_to_set PotcarData._meta_attrs.
Proof.
  unfold meta_dict, PotcarData._meta_attrs. rewrite !dom_insert_L, dom_empty_L.
  simpl. set_solver.
Qed.

Lemma meta_dict_eq (attrs : gmap string string) h t f e s :
  dom attrs = list_to_set PotcarData._meta_attrs →
  attrs !! "md5" = Some h → attrs !! "title" = Some t →
  attrs !! "functional" = Some f → attrs !! "element" = Some e →
  attrs !! "symbol" = Some s →
  meta_dict h t f e s = attrs.
Proof.
  intros Hdom Hh Ht Hf He Hs. apply map_eq. intros k.
  destruct (meta_dict_lookup h t f e s) as (Mh & Mt & Mf & Me & Ms).
  destruct (decide (k ∈ PotcarData._meta_attrs)) as [Hin|Hout].
  - unfold PotcarData._meta_attrs in Hin.
    repeat (apply elem_of_cons in Hin as [->|Hin]); try congruence.
    by apply elem_of_nil in Hin.
  - assert (k ∉ dom attrs) as H1 by (rewrite Hdom; by rewrite elem_of_list_to_set).
    assert (k ∉ dom (meta_dict h t f e s)) as H2
      by (rewrite meta_dict_dom; by rewrite elem_of_list_to_set).
    apply not_elem_of_dom in H1, H2. congruence.
Qed.

Lemma PotcarData_new_run (fn : PotcarFileDataNode) :
  PotcarData.new fn =
    h ← md5 fn; t ← title fn; f ← functional fn; e ← element fn; s ← symbol fn;
    Return (mkNode None (meta_dict h t f e s)).
Proof.
  unfold PotcarData.new, PotcarData.set_potcar_file_node, PotcarData._meta_attrs,
    for_each, Data._set_attr, md5, title, functional, element, symbol, meta_dict.
  unfold_M. simpl.
  destruct (get_attr fn "md5"); [|done].
  destruct (get_attr fn "title"); [|done].
  destruct (get_attr fn "functional"); [|done].
  destruct (get_attr fn "element"); [|done].
  by destruct (get_attr fn "symbol").
Qed.

(** From a record, the constructor copies the whole attribute dictionary. *)
Lemma PotcarData_new_record (fn : PotcarFileDataNode) :
  is_record fn → PotcarData.new fn = Return (mkNode None (file_attrs fn)).
Proof.
  intros Hrec. rewrite PotcarData_new_run.
  destruct (is_record_lookup fn "md5" Hrec) as [h Hh]; [in_meta_attrs|].
  destruct (is_record_lookup fn "title" Hrec) as [t Ht]; [in_meta_attrs|].
  destruct (is_record_lookup fn "functional" Hrec) as [f Hf]; [in_meta_attrs|].
  destruct (is_record_lookup fn "element" Hrec) as [e He]; [in_meta_attrs|].
  destruct (is_record_lookup fn "symbol" Hrec) as [s Hs]; [in_meta_attrs|].
  unfold md5, title, functional, element, symbol, get_attr.
  rewrite Hh, Ht, Hf, He, Hs. unfold_M. simpl in *.
  by rewrite (meta_dict_eq (file_attrs fn) h t f e s).
Qed.

Lemma PotcarData_store_run (self : PotcarDataNode) db :
  PotcarData.store self db =
    match verify_unique self db with
    | Raise e => (Raise e, db)
    | Return _ =>
        let node := mkNode (Some (next_pk db)) (node_attrs self) in
        (Return node, db_add_potcar db node)
    end.
Proof.
  unfold PotcarData.store, Data.store. unfold_M.
  by destruct (verify_unique self db).
Qed.

Lemma PotcarData_get_or_create_run (fn : PotcarFileDataNode) db :
  PotcarData.get_or_create fn db =
    match md5 fn with
    | Raise e => (Raise e, db)
    | Return h =>
        if exists_ (N := PotcarDataNode) {["md5" := h]} db then
          match find (N := PotcarDataNode) {["md5" := h]} db with
          | Return node => (Return (node, false), db)
          | Raise e => (Raise e, db)
          end
        else
          match PotcarData.new fn with
          | Raise e => (Raise e, db)
          | Return node =>
              match PotcarData.store node db with
              | (Return node', db') => (Return (node', true), db')
              | (Raise e, db') => (Raise e, db')
              end
          end
    end.
Proof.
  unfold PotcarData.get_or_create. unfold_M.
  destruct (md5 fn) as [h|]; [|done].
  destruct (exists_ {["md5" := h]} db).
  - by destruct (find {["md5" := h]} db).
  - destruct (PotcarData.new fn) as [node|]; [|done].
    by destruct (PotcarData.store node db) as [[?|?] ?].
Qed.

Lemma PotcarFileData_store_run (self : PotcarFileDataNode) db :
  PotcarFileData.store self db =
    match PotcarData.get_or_create self db with
    | (Raise e, db') => (Raise e, db')
    | (Return _, db') =>
        match PotcarFileData.verify_unique self db' with
        | Raise e => (Raise e, db')
        | Return _ =>
            let node := mkFileNode (Some (next_pk db')) (file_attrs self) (_filelist self) in
            (Return node, db_add_potcar_file db' node)
        end
    end.
Proof.
  unfold PotcarFileData.store, ArchiveData.store. unfold_M.
  destruct (PotcarData.get_or_create self db) as [[?|?] db']; [|done].
  by destruct (PotcarFileData.verify_unique self db').
Qed.

Lemma PotcarFileData_verify_unique_mixin (self : PotcarFileDataNode) db :
  is_Return (PotcarFileData.verify_unique self db) = is_Return (verify_unique self db) ∧
  is_UniquenessError (PotcarFileData.verify_unique self db)
    = is_UniquenessError (verify_unique self db).
Proof.
  unfold PotcarFileData.verify_unique, verify_unique. unfold_M.
  destruct (md5 self) as [h|]; [|done].
  destruct (exists_ {["md5" := h]} db); [done|].
  destruct (pop "md5" (get_attrs self)) as [[? other]|]; [|done].
  by destruct (exists_ other db).
Qed.

(** The override in [PotcarFileData] decides as the mixin's method does. *)
Lemma PotcarFileData_verify_unique_conflict (self : PotcarFileDataNode) db :
  is_record self →
  (uniqueness_conflict self db →
     ∃ msg, PotcarFileData.verify_unique self db = Raise (UniquenessError msg)) ∧
  (¬ uniqueness_conflict self db → PotcarFileData.verify_unique self db = Return ()).
Proof.
  intros Hrec.
  destruct (verify_unique_conflict self db Hrec) as [Hc Hn].
  destruct (PotcarFileData_verify_unique_mixin self db) as [Hr Hu].
  split; intros Hx.
  - destruct (Hc Hx) as [msg Hm]. rewrite Hm in Hu. simpl in Hu.
    destruct (PotcarFileData.verify_unique self db) as [|[]]; try done. eauto.
  - rewrite (Hn Hx) in Hr. simpl in Hr.
    by destruct (PotcarFileData.verify_unique self db) as [[]|].
Qed.

(** On a record the override raises nothing but UniquenessError, and only
    on a conflict. *)
Lemma PotcarFileData_verify_unique_Raise (self : PotcarFileDataNode) db e :
  is_record self →
  PotcarFileData.verify_unique self db = Raise e →
  (∃ msg, e = UniquenessError msg) ∧ uniqueness_conflict self db.
Proof.
  intros Hrec. rewrite conflict_cases.
  destruct (is_record_lookup self "md5" Hrec) as [h Hh]; [in_meta_attrs|].
  assert (md5 self = Return h) as Hmd5 by by apply md5_Return.
  unfold PotcarFileData.verify_unique, pop. rewrite Hmd5.
  cbn [get_attrs PotcarFileData_mixin] in *. rewrite Hh. unfold_M.
  destruct (exists_ {["md5" := h]} db) eqn:Ea.
  { intros [= <-]. split; [eauto|]. left.
    by apply (exists_md5_same_hash self db h). }
  destruct (exists_ (delete "md5" (file_attrs self)) db) eqn:Eb; [|done].
  intros [= <-]. split; [eauto|]. right.
  apply exists_true in Eb as (r & Hr & Hm). exists r. split; [done|].
  by apply (kwargs_match_other_attrs r self).
Qed.

(** [get_or_create] of the shadow touches the PotcarData table only. *)
Lemma PotcarData_get_or_create_frame (fn : PotcarFileDataNode) db r db' :
  PotcarData.get_or_create fn db = (r, db') →
  potcar_files db' = potcar_files db ∧ links db' = links db.
Proof.
  rewrite PotcarData_get_or_create_run.
  destruct (md5 fn) as [h|]; [|by intros [= _ <-]].
  destruct (exists_ {["md5" := h]} db).
  { destruct (find {["md5" := h]} db); by intros [= _ <-]. }
  destruct (PotcarData.new fn) as [node|]; [|by intros [= _ <-]].
  rewrite PotcarData_store_run.
  destruct (verify_unique node db); simpl; by intros [= _ <-].
Qed.

(** A [PotcarData.get_or_create] that raises has stored nothing. *)
Lemma PotcarData_get_or_create_Raise (fn : PotcarFileDataNode) db e db' :
  PotcarData.get_or_create fn db = (Raise e, db') → db' = db.
Proof.
  rewrite PotcarData_get_or_create_run.
  destruct (md5 fn) as [h|]; [|by intros [= _ <-]].
  destruct (exists_ {["md5" := h]} db).
  { destruct (find {["md5" := h]} db); [done | by intros [= _ <-]]. }
  destruct (PotcarData.new fn) as [node|]; [|by intros [= _ <-]].
  rewrite PotcarData_store_run.
  destruct (verify_unique node db); simpl; [done | by intros [= _ <-]].
Qed.

Lemma query_by_attrs_potcars_add kwargs db (node : PotcarDataNode) :
  query_by_attrs kwargs (db_add_potcar db node) =
  (query_by_attrs kwargs db ++
    (if decide (kwargs_match kwargs (node_attrs node)) then [node] else []))%list.
Proof.
  unfold query_by_attrs. cbn [querybuild PotcarData_mixin PotcarFileData_mixin
    db_add_potcar db_add_potcar_file potcars potcar_files get_attrs].
  by rewrite filter_app.
Qed.

Lemma query_by_attrs_files_add kwargs db (node : PotcarFileDataNode) :
  query_by_attrs kwargs (db_add_potcar_file db node) =
  (query_by_attrs kwargs db ++
    (if decide (kwargs_match kwargs (file_attrs node)) then [node] else []))%list.
Proof.
  unfold query_by_attrs. cbn [querybuild PotcarData_mixin PotcarFileData_mixin
    db_add_potcar db_add_potcar_file potcars potcar_files get_attrs].
  by rewrite filter_app.
Qed.

Lemma query_by_attrs_files_frame kwargs db db' :
  potcar_files db' = potcar_files db →
  query_by_attrs (N := PotcarFileDataNode) kwargs db' = query_by_attrs kwargs db.
Proof. unfold query_by_attrs. simpl. by intros ->. Qed.

(** What a successful [PotcarData.get_or_create] leaves behind: exactly one
    PotcarData under the file's md5, the node it returns; it is either the
    one found (database untouched) or a new node with the file's five
    attributes, appended to the table. *)
Lemma PotcarData_get_or_create_Return (fn : PotcarFileDataNode) db node created db' :
  PotcarData.get_or_create fn db = (Return (node, created), db') →
  ∃ h, md5 fn = Return h ∧
       query_by_attrs (N := PotcarDataNode) {["md5" := h]} db' = [node] ∧
       (if created then
          query_by_attrs (N := PotcarDataNode) {["md5" := h]} db = [] ∧
          PotcarData.new fn = Return (mkNode None (node_attrs node)) ∧
          node_pk node = Some (next_pk db) ∧
          db' = db_add_potcar db node
        else db' = db).
Proof.
  rewrite PotcarData_get_or_create_run.
  destruct (md5 fn) as [h|] eqn:Hh; [|done].
  destruct (exists_ (N := PotcarDataNode) {["md5" := h]} db) eqn:Hex.
  { destruct (find (N := PotcarDataNode) {["md5" := h]} db) eqn:Hf; [|done].
    intros [= <- <- <-]. exists h. by apply find_Return in Hf. }
  destruct (PotcarData.new fn) as [node0|] eqn:Hnew; [|done].
  rewrite PotcarData_store_run.
  destruct (verify_unique node0 db); [|done]. simpl.
  intros [= <- <- <-]. exists h. apply exists_false in Hex.
  split; [done|]. rewrite query_by_attrs_potcars_add, Hex. simpl.
  assert (node_pk node0 = None ∧ node_attrs node0 !! "md5" = Some h) as [Hpk Hm].
  { rewrite PotcarData_new_run, Hh in Hnew. unfold_M.
    destruct (title fn), (functional fn), (element fn), (symbol fn); try done.
    injection Hnew as <-. simpl. split; [done | apply meta_dict_lookup]. }
  rewrite decide_True by by apply kwargs_match_md5.
  repeat split; try done. destruct node0; simpl in *. by subst.
Qed.


(** ** The file node: [add_file], the constructor, [get_or_create] *)

Section FileNode.
Context `{Files}.

Lemma add_file_full src_abs dst_filename (self : PotcarFileDataNode) :
  _filelist self ≠ [] →
  PotcarFileData.add_file src_abs dst_filename self =
    (Raise (AttributeError "Can only hold one POTCAR file"), self).
Proof.
  intros Hfull. unfold PotcarFileData.add_file. unfold_M.
  by rewrite bool_decide_eq_true_2.
Qed.

Lemma add_file_empty src_abs dst_filename (self : PotcarFileDataNode) h potcar titel :
  _filelist self = [] →
  md5_file src_abs = Return h →
  PotcarSingle_from_file src_abs = Return potcar →
  PotcarSingle.keywords potcar !! "TITEL" = Some titel →
  PotcarFileData.add_file src_abs dst_filename self =
    (Return (),
     mkFileNode (file_pk self)
       (<["symbol" := PotcarSingle.symbol potcar]>
          (<["element" := PotcarSingle.element potcar]>
             (<["functional" := PotcarSingle.functional potcar]>
                (<["title" := titel]> (<["md5" := h]> (file_attrs self))))))
       [(src_abs, default src_abs dst_filename)]).
Proof.
  intros Hempty Hh Hp Ht.
  unfold PotcarFileData.add_file, ArchiveData.add_file, ArchiveData._set_attr, getitem.
  unfold_M. rewrite bool_decide_eq_false_2 by (rewrite Hempty; by intros []).
  simpl. by rewrite Hh, Hp, Ht, Hempty.
Qed.

Lemma PotcarFileData_new_run filepath :
  PotcarFileData.new filepath =
    h ← md5_file filepath;
    potcar ← PotcarSingle_from_file filepath;
    titel ← getitem (PotcarSingle.keywords potcar) "TITEL";
    Return (mkFileNode None
              (meta_dict h titel (PotcarSingle.functional potcar)
                 (PotcarSingle.element potcar) (PotcarSingle.symbol potcar))
              [(filepath, filepath)]).
Proof.
  unfold PotcarFileData.new, PotcarFileData.set_file, PotcarFileData.add_file,
    ArchiveData.add_file, ArchiveData._set_attr, meta_dict.
  unfold_M. simpl.
  destruct (md5_file filepath); [|done].
  destruct (PotcarSingle_from_file filepath) as [potcar|]; [|done].
  by destruct (getitem (PotcarSingle.keywords potcar) "TITEL").
Qed.

(** A node the constructor returns is a record whose md5 is the file's. *)
Lemma PotcarFileData_new_Return filepath (fn : PotcarFileDataNode) :
  PotcarFileData.new filepath = Return fn →
  is_record fn ∧ md5_file filepath = md5 fn ∧ file_pk fn = None ∧
  _filelist fn = [(filepath, filepath)].
Proof.
  rewrite PotcarFileData_new_run. unfold_M.
  destruct (md5_file filepath) as [h|]; [|done].
  destruct (PotcarSingle_from_file filepath) as [potcar|]; [|done].
  destruct (getitem (PotcarSingle.keywords potcar) "TITEL") as [t|]; [|done].
  intros [= <-]. unfold is_record. simpl. split; [apply meta_dict_dom|].
  split; [|done]. symmetry. apply md5_Return. apply meta_dict_lookup.
Qed.

Lemma PotcarFileData_get_or_create_run filepath db :
  PotcarFileData.get_or_create filepath db =
    match md5_file filepath with
    | Raise e => (Raise e, db)
    | Return h =>
        if exists_ (N := PotcarFileDataNode) {["md5" := h]} db then
          match find (N := PotcarFileDataNode) {["md5" := h]} db with
          | Return node => (Return (node, false), db)
          | Raise e => (Raise e, db)
          end
        else
          match PotcarFileData.new filepath with
          | Raise e => (Raise e, db)
          | Return node =>
              match PotcarFileData.store node db with
              | (Return node', db') => (Return (node', true), db')
              | (Raise e, db') => (Raise e, db')
              end
          end
    end.
Proof.
  unfold PotcarFileData.get_or_create. unfold_M.
  destruct (md5_file filepath) as [h|]; [|done].
  destruct (exists_ {["md5" := h]} db).
  - by destruct (find {["md5" := h]} db).
  - destruct (PotcarFileData.new filepath) as [node|]; [|done].
    by destruct (PotcarFileData.store node db) as [[?|?] ?].
Qed.
End FileNode.

(** What a successful store of a file node leaves behind: the shadow step
    returned a PotcarData [shadow], the file node passed its uniqueness
    check, and it was appended with a new primary key. *)
Lemma PotcarFileData_store_Return (self node : PotcarFileDataNode) db db' :
  PotcarFileData.store self db = (Return node, db') →
  ∃ shadow created db1,
    PotcarData.get_or_create self db = (Return (shadow, created), db1) ∧
    PotcarFileData.verify_unique self db1 = Return () ∧
    node = mkFileNode (Some (next_pk db1)) (file_attrs self) (_filelist self) ∧
    db' = db_add_potcar_file db1 node.
Proof.
  rewrite PotcarFileData_store_run.
  destruct (PotcarData.get_or_create self db) as [[[shadow created]|] db1] eqn:Hg;
    [|done].
  destruct (PotcarFileData.verify_unique self db1) as [[]|] eqn:Hv; [|done].
  simpl. intros [= <- <-]. by exists shadow, created, db1.
Qed.

Section FileNodeGetOrCreate.
Context `{Files}.

(** After a successful [PotcarFileData.get_or_create] exactly one file node
    is stored under the file's md5: the node returned. *)
Lemma PotcarFileData_get_or_create_Return filepath db node created db' :
  PotcarFileData.get_or_create filepath db = (Return (node, created), db') →
  ∃ h, md5_file filepath = Return h ∧
       query_by_attrs (N := PotcarFileDataNode) {["md5" := h]} db' = [node] ∧
       (created = false → db' = db).
Proof.
  rewrite PotcarFileData_get_or_create_run.
  destruct (md5_file filepath) as [h|] eqn:Hh; [|done].
  destruct (exists_ (N := PotcarFileDataNode) {["md5" := h]} db) eqn:Hex.
  { destruct (find (N := PotcarFileDataNode) {["md5" := h]} db) eqn:Hf; [|done].
    intros [= <- <- <-]. exists h. by apply find_Return in Hf. }
  destruct (PotcarFileData.new filepath) as [node0|] eqn:Hnew; [|done].
  destruct (PotcarFileData.store node0 db) as [[node1|] db1] eqn:Hst; [|done].
  intros [= <- <- <-]. exists h. split; [done|]. split; [|done].
  apply PotcarFileData_new_Return in Hnew as (_ & Hmd5 & _).
  apply PotcarFileData_store_Return in Hst as (s & c & db2 & Hg & _ & -> & ->).
  apply PotcarData_get_or_create_frame in Hg as [Hfiles _].
  rewrite query_by_attrs_files_add, (query_by_attrs_files_frame _ db db2 Hfiles).
  apply exists_false in Hex. rewrite Hex. simpl.
  rewrite decide_True; [done|].
  apply kwargs_match_md5.
  change (get_attrs node0 !! "md5" = Some h). apply md5_Return. congruence.
Qed.

Lemma PotcarFileData_get_or_create_found filepath db h node :
  md5_file filepath = Return h →
  query_by_attrs (N := PotcarFileDataNode) {["md5" := h]} db = [node] →
  PotcarFileData.get_or_create filepath db = (Return (node, false), db).
Proof.
  intros Hh Hq. rewrite PotcarFileData_get_or_create_run, Hh.
  rewrite (exists_of_single _ _ _ Hq).
  apply find_Return in Hq. by rewrite Hq.
Qed.


End FileNodeGetOrCreate.

(** ** Storing a record *)

Lemma uniqueness_conflict_files_frame (self : PotcarFileDataNode) db db' :
  potcar_files db' = potcar_files db →
  uniqueness_conflict self db' ↔ uniqueness_conflict self db.
Proof.
  intros Hf. unfold uniqueness_conflict, same_hash_stored, same_metadata_other_hash.
  simpl. by rewrite Hf.
Qed.

(** What [PotcarFileData.store] does with a record when at most one
    PotcarData is stored under any md5. *)
Lemma PotcarFileData_store_record (self : PotcarFileDataNode) db :
  is_record self →
  hash_unique PotcarDataNode db →
  (uniqueness_conflict self db ∨ shadow_conflict self db →
     ∃ msg db1, PotcarFileData.store self db = (Raise (UniquenessError msg), db1) ∧
                potcar_files db1 = potcar_files db) ∧
  (¬ uniqueness_conflict self db → ¬ shadow_conflict self db →
     ∃ db1, potcar_files db1 = potcar_files db ∧
       let node := mkFileNode (Some (next_pk db1)) (file_attrs self) (_filelist self) in
       PotcarFileData.store self db = (Return node, db_add_potcar_file db1 node)).
Proof.
  intros Hrec Huniq.
  set (shadow := mkNode None (file_attrs self)).
  assert (is_record shadow) as Hrec' by exact Hrec.
  destruct (is_record_lookup self "md5" Hrec) as [h Hh]; [in_meta_attrs|].
  assert (md5 self = Return h) as Hmd5 by by apply md5_Return.
  assert (md5 shadow = Return h) as Hmd5' by by apply (md5_Return (N := PotcarDataNode)).
  rewrite PotcarFileData_store_run, PotcarData_get_or_create_run, Hmd5.
  destruct (exists_ (N := PotcarDataNode) {["md5" := h]} db) eqn:Hex.
  - assert (same_hash_stored shadow db) as Hsame
      by by apply (exists_md5_same_hash shadow db h).
    assert (∃ s, find (N := PotcarDataNode) {["md5" := h]} db = Return s) as [s ->].
    { specialize (Huniq h). unfold exists_, QueryBuilder.count in Hex.
      apply bool_decide_eq_true in Hex. unfold find, QueryBuilder.one.
      destruct (query_by_attrs (N := PotcarDataNode) {["md5" := h]} db)
        as [|s [|s' rows]]; simpl in *; [lia | eauto | lia]. }
    destruct (PotcarFileData_verify_unique_conflict self db Hrec) as [Hc Hn].
    split.
    + intros [Hx|[Hns _]]; [|done]. destruct (Hc Hx) as [msg ->]. by exists msg, db.
    + intros Hx _. rewrite (Hn Hx). by exists db.
  - assert (¬ same_hash_stored shadow db) as Hns.
    { rewrite <- (exists_md5_same_hash shadow db h Hmd5'). congruence. }
    rewrite (PotcarData_new_record self Hrec), PotcarData_store_run.
    fold shadow.
    destruct (verify_unique_conflict shadow db Hrec') as [Hc' Hn'].
    destruct (verify_unique shadow db) as [[]|e] eqn:Hv.
    + cbn zeta. cbn [node_attrs shadow].
      set (db1 := db_add_potcar db (mkNode (Some (next_pk db)) (file_attrs self))).
      destruct (PotcarFileData_verify_unique_conflict self db1 Hrec) as [Hc Hn].
      rewrite (uniqueness_conflict_files_frame self db db1 eq_refl) in Hc, Hn.
      split.
      * intros [Hx|[_ Hsm]].
        -- destruct (Hc Hx) as [msg ->]. by exists msg, db1.
        -- destruct (Hc' (or_intror Hsm)) as [msg ?]. congruence.
      * intros Hx _. rewrite (Hn Hx). by exists db1.
    + destruct (verify_unique_Raise shadow db e Hrec' Hv) as [msg ->].
      split.
      * intros _. by exists msg, db.
      * intros _ Hnsc. exfalso.
        assert (Raise (UniquenessError msg) = Return ()); [|congruence].
        apply Hn'. intros [?|Hsm]; [done|]. apply Hnsc. by split.
Qed.

(** C3 (as amended). The uniqueness check of a record (a node that carries
    the five metadata attributes) raises UniquenessError in exactly two
    situations, judged among the stored nodes of its own class: (a) one has
    the same md5, or (b) one has the same title, functional, element and
    symbol and another md5; in every other situation the check passes. This
    is what [verify_unique] decides, in the mixin and in the
    [PotcarFileData] override, and [PotcarData.store] is the check followed
    by the insertion: it fails in these two situations and otherwise stores
    the node. [PotcarFileData.store] gets or creates the PotcarData first.
    With at most one PotcarData stored under any md5, it raises
    UniquenessError when (a) or (b) holds among the stored file nodes, and
    also when no PotcarData is stored under the md5 while a stored
    PotcarData has the same title, functional, element and symbol; in every
    other situation the file node is stored. No failure stores a file
    node. *)
Theorem store_fails_exactly_on_uniqueness_conflict (db : Db) :
  (∀ (N : Type) (mixin : PotcarMetadataMixin N) (self : N),
     is_record self →
     (uniqueness_conflict self db →
        ∃ msg, verify_unique self db = Raise (UniquenessError msg)) ∧
     (¬ uniqueness_conflict self db → verify_unique self db = Return ()))
  ∧ (∀ self : PotcarFileDataNode,
     is_record self →
     (uniqueness_conflict self db →
        ∃ msg, PotcarFileData.verify_unique self db = Raise (UniquenessError msg)) ∧
     (¬ uniqueness_conflict self db →
        PotcarFileData.verify_unique self db = Return ()))
  ∧ (∀ self : PotcarDataNode,
     is_record self →
     (uniqueness_conflict self db →
        ∃ msg, PotcarData.store self db = (Raise (UniquenessError msg), db)) ∧
     (¬ uniqueness_conflict self db →
        let node := mkNode (Some (next_pk db)) (node_attrs self) in
        PotcarData.store self db = (Return node, db_add_potcar db node)))
  ∧ (∀ self : PotcarFileDataNode,
     is_record self →
     hash_unique PotcarDataNode db →
     (uniqueness_conflict self db ∨ shadow_conflict self db →
        ∃ msg db1,
          PotcarFileData.store self db = (Raise (UniquenessError msg), db1) ∧
          potcar_files db1 = potcar_files db) ∧
     (¬ uniqueness_conflict self db → ¬ shadow_conflict self db →
        ∃ db1, potcar_files db1 = potcar_files db ∧
          let node := mkFileNode (Some (next_pk db1)) (file_attrs self) (_filelist self) in
          PotcarFileData.store self db = (Return node, db_add_potcar_file db1 node))).
Proof.
  split; [|split; [|split]].
  - intros N mixin self. apply verify_unique_conflict.
  - intros self. apply PotcarFileData_verify_unique_conflict.
  - intros self Hrec.
    destruct (verify_unique_conflict self db Hrec) as [Hc Hn].
    rewrite PotcarData_store_run. split; intros Hx.
    + destruct (Hc Hx) as [msg ->]. eauto.
    + by rewrite (Hn Hx).
  - intros self. apply PotcarFileData_store_record.
Qed.

Lemma PotcarData_new_Return (fn : PotcarFileDataNode) (node : PotcarDataNode) :
  PotcarData.new fn = Return node →
  node_pk node = None ∧ is_record node ∧
  ∀ k, k ∈ PotcarData._meta_attrs → node_attrs node !! k = file_attrs fn !! k.
Proof.
  rewrite PotcarData_new_run.
  unfold md5, title, functional, element, symbol, get_attr. unfold_M. simpl.
  destruct (file_attrs fn !! "md5") as [h|] eqn:Hh; [|done].
  destruct (file_attrs fn !! "title") as [t|] eqn:Ht; [|done].
  destruct (file_attrs fn !! "functional") as [f|] eqn:Hf; [|done].
  destruct (file_attrs fn !! "element") as [e|] eqn:He; [|done].
  destruct (file_attrs fn !! "symbol") as [s|] eqn:Hs; [|done].
  intros [= <-]. simpl. split; [done|]. split; [apply meta_dict_dom|].
  destruct (meta_dict_lookup h t f e s) as (Mh & Mt & Mf & Me & Ms).
  intros k Hin. unfold PotcarData._meta_attrs in Hin.
  repeat (apply elem_of_cons in Hin as [->|Hin]); try congruence.
  by apply elem_of_nil in Hin.
Qed.


(** ** One payload per file node *)

(** C8. A file node that already holds a payload refuses another one:
    [add_file] raises AttributeError ('Can only hold one POTCAR file') and
    leaves the node as it is. On a node that holds none, and for a file that
    can be read and whose header has a TITEL, [add_file] succeeds: the node
    then holds that one payload and carries the five attributes derived from
    it (md5, title, functional, element, symbol), and any further [add_file]
    on it is refused. *)
Theorem add_file_only_once `{Files} src_abs dst_filename (self : PotcarFileDataNode) :
  (_filelist self ≠ [] →
     PotcarFileData.add_file src_abs dst_filename self =
       (Raise (AttributeError "Can only hold one POTCAR file"), self))
  ∧ (_filelist self = [] →
     ∀ h potcar titel,
       md5_file src_abs = Return h →
       PotcarSingle_from_file src_abs = Return potcar →
       PotcarSingle.keywords potcar !! "TITEL" = Some titel →
       ∃ self',
         PotcarFileData.add_file src_abs dst_filename self = (Return (), self') ∧
         _filelist self' = [(src_abs, default src_abs dst_filename)] ∧
         md5 self' = Return h ∧
         title self' = Return titel ∧
         functional self' = Return (PotcarSingle.functional potcar) ∧
         element self' = Return (PotcarSingle.element potcar) ∧
         symbol self' = Return (PotcarSingle.symbol potcar) ∧
         ∀ src2 dst2,
           PotcarFileData.add_file src2 dst2 self' =
             (Raise (AttributeError "Can only hold one POTCAR file"), self')).
Proof.
  split; [apply add_file_full|].
  intros Hempty h potcar titel Hh Hp Ht.
  eexists. split; [by apply add_file_empty|].
  split; [done|].
  unfold md5, title, functional, element, symbol, get_attr. simpl.
  do 5 (split; [by simplify_map_eq|]).
  intros src2 dst2. by apply add_file_full.
Qed.

(** ** From the PotcarData back to the file node *)





(** C3 does not hold as first stated, for file nodes. In the database that
    holds the PotcarData of the As file and no file node at all, neither (a)
    nor (b) holds for the file node of the edited As file among the stored
    file nodes, and yet its store raises UniquenessError: the error is the
    one of the PotcarData made first. In the same database a node with the
    md5 of the As file is stored, and yet the store of the As file node
    succeeds. *)
Lemma file_store_fails_without_file_conflict :
  is_record Fixture.As_edited_file_node ∧
  potcar_files Fixture.db_As_data_only = [] ∧
  (uniqueness_conflict Fixture.As_edited_file_node Fixture.db_As_data_only → False) ∧
  PotcarFileData.store Fixture.As_edited_file_node Fixture.db_As_data_only
    = (Raise (UniquenessError
         "A <class 'aiida_vasp.data.potcar.PotcarData'> node with these attributes but a different file exists."),
       Fixture.db_As_data_only) ∧
  exists_ (N := PotcarDataNode) {["md5" := "md5-As"]} Fixture.db_As_data_only = true ∧
  md5 Fixture.As_file_node = Return "md5-As" ∧
  is_Return (PotcarFileData.store Fixture.As_file_node Fixture.db_As_data_only).1 = true.
Proof.
  split; [by vm_compute|]. split; [done|]. split; [|by vm_compute].
  intros [(r & Hr & _)|(r & Hr & _)]; by apply elem_of_nil in Hr.
Qed.

(** ** The command line callback *)

(** What the callback does with a data class whose [get_potcar_groups]
    returns a list of groups: with no description given ([value] is [None]
    or empty) it raises click's MissingParameter when the family name is
    not among the groups, and returns the description of the group that
    [get_potcar_group] returns when it is; a description that is given is
    returned as it is. *)
Lemma try_grab_description_with_groups `{PotcarDataCls}
    (ctx_params : gmap string string) (param : string) (value : option string)
    (group_name : string) (groups : list Group) (db db1 : Db) :
  ctx_params !! "name" = Some group_name →
  get_potcar_groups db = (Return (Some groups), db1) →
  (not_value value = true → group_name ∉ name <$> groups →
     try_grab_description ctx_params param value db =
       (Raise (MissingParameter "A new group must be given a description."), db1))
  ∧ (not_value value = true → group_name ∈ name <$> groups →
     ∀ group db2, get_potcar_group group_name db1 = (Return (Some group), db2) →
       try_grab_description ctx_params param value db =
         (Return (description group), db2))
  ∧ (∀ desc, value = Some desc → desc ≠ "" →
       try_grab_description ctx_params param value db = (Return desc, db1)).
Proof.
  intros Hname Hgroups.
  unfold try_grab_description, getitem, group_names. unfold_M.
  rewrite Hname, Hgroups.
  split; [|split].
  - intros -> Hnot. by rewrite bool_decide_eq_false_2.
  - intros -> Hin group db2 Hg. by rewrite bool_decide_eq_true_2, Hg.
  - intros desc -> Hne. destruct desc; [done|]. done.
Qed.

(** C9, what the code does. The data class of the repository is
    [PotcarData], whose [get_potcar_groups] is a signature and a docstring
    and returns [None]. Once ctx.params has a ['name'], the callback of
    [--desc] raises TypeError at the list of the group names, whatever the
    family name, the description and the database are: no missing
    description is reported as MissingParameter, no description of an
    existing family is reused, and a description that is given is not
    returned either. *)
Theorem try_grab_description_raises_TypeError
    (ctx_params : gmap string string) (param : string) (value : option string)
    (group_name : string) (db : Db) :
  ctx_params !! "name" = Some group_name →
  @try_grab_description PotcarData_cls ctx_params param value db
    = (Raise (TypeError "'NoneType' object is not iterable"), db).
Proof.
  intros Hname. unfold try_grab_description, getitem. unfold_M. by rewrite Hname.
Qed.

(** ** The family upload *)

(** C4, what the code does: with [stop_if_existing] set, on a database that
    already holds the file of the folder, [upload_potcar_family] raises
    nothing: it returns [None] and leaves the database as it is, whatever
    the folder, the family and the database are. *)
Theorem upload_potcar_family_strict_returns_None
    (folder group_name : string) (group_description : option string) (db : Db) :
  upload_potcar_family folder group_name group_description true db = (Return None, db)
  ∧ upload_potcar_family "potcar" "PBE" (Some "d") true Fixture.db_As
    = (Return None, Fixture.db_As).
Proof. done. Qed.

(** The command looks [upload_potcar_family] up on the data class and
    unpacks what it returns into [num_found, num_uploaded]: on [None] it
    raises TypeError, on a pair it echoes the two counts. [PotcarData] has
    no such attribute, and the command raises AttributeError. *)
Lemma uploadfamily_unpacks `{PotcarDataCls} upload path name desc stop_if_existing
    db counts db' :
  cls_upload_potcar_family = Some upload →
  upload path name desc stop_if_existing db = (Return counts, db') →
  uploadfamily path name desc stop_if_existing db =
    match counts with
    | Some (num_found, num_uploaded) =>
        (Return ("POTCAR files found: " +:+ pretty num_found +:+
                 ". New files uploaded: " +:+ pretty num_uploaded), db')
    | None => (Raise (TypeError "'NoneType' object is not iterable"), db')
    end.
Proof.
  intros Hattr Hup. unfold uploadfamily, getattr_upload_potcar_family. unfold_M.
  rewrite Hattr, Hup. by destruct counts as [[? ?]|].
Qed.

Lemma uploadfamily_PotcarData path name desc stop_if_existing db :
  @uploadfamily PotcarData_cls path name desc stop_if_existing db =
    (Raise (AttributeError
       "type object 'PotcarData' has no attribute 'upload_potcar_family'"), db).
Proof. done. Qed.

(** C5, what the code does: without [stop_if_existing],
    [upload_potcar_family] returns [None] and not a pair of counts; it
    counts no file and stores none. On the database that holds the As file
    and for a folder with that file and a new one, the result is [None]
    where the specification has (2, 1). *)
Theorem upload_potcar_family_returns_no_counts
    (folder group_name : string) (group_description : option string) (db : Db) :
  upload_potcar_family folder group_name group_description false db = (Return None, db)
  ∧ (upload_potcar_family "potcar" "PBE" (Some "d") false Fixture.db_As).1
    = Return None
  ∧ bool_decide ((upload_potcar_family "potcar" "PBE" (Some "d") false Fixture.db_As).1
                 = Return (Some (2, 1))) = false.
Proof. done. Qed.

(** ** Writing several records to one file and reading them back *)

Module MultiRecordIO_facts.
Import MultiRecordIO.
#[local] Open Scope list_scope.

Section Format.
Context (end_marker : list ascii) (digest : list ascii → string).

Abbreviation split_records := (split_records end_marker).
Abbreviation is_payload := (is_payload end_marker).

(** Reading on from [current], a text that completes the marker at its last
    character and not before is cut off as one record. *)
Lemma split_records_one current payload rest :
  payload ≠ [] →
  end_marker `suffix_of` current ++ payload →
  (∀ q, q ≠ [] → q `prefix_of` payload →
        end_marker `suffix_of` current ++ q → q = payload) →
  split_records current (payload ++ rest) =
    (current ++ payload) :: split_records [] rest.
Proof.
  revert current. induction payload as [|c payload IH]; intros current Hne Hend Hfirst.
  { done. }
  simpl. case_bool_decide as Hc.
  - assert ([c] = c :: payload) as Heq.
    { apply Hfirst; [done| |done]. by apply prefix_cons, prefix_nil. }
    injection Heq as <-. done.
  - destruct payload as [|c' payload']; [done|].
    rewrite (IH (current ++ [c])); [by rewrite <- app_assoc|done|..].
    + by rewrite <- app_assoc.
    + intros q Hq Hpre Hsuf. rewrite <- app_assoc in Hsuf.
      assert (c :: q = c :: c' :: payload') as Heq.
      { apply Hfirst; [done| |done]. by apply prefix_cons. }
      by injection Heq.
Qed.

Lemma split_records_concat (payloads : list (list ascii)) :
  Forall is_payload payloads →
  split_records [] (concat payloads) = payloads.
Proof.
  induction 1 as [|payload payloads (Hne & Hend & Hfirst) _ IH]; [done|].
  simpl. rewrite (split_records_one [] payload); [by rewrite IH|done..].
Qed.

(** The check that runs decides the payload format. *)
Lemma ends_at_last_spec current payload :
  ends_at_last end_marker current payload = true →
  payload ≠ [] ∧ end_marker `suffix_of` current ++ payload ∧
  ∀ q, q ≠ [] → q `prefix_of` payload →
       end_marker `suffix_of` current ++ q → q = payload.
Proof.
  revert current. induction payload as [|c payload IH]; intros current; [done|].
  simpl. destruct payload as [|c' payload'].
  - intros Hc%bool_decide_eq_true. repeat split; [done..|].
    intros [|c0 q] Hq Hpre _; [done|].
    apply prefix_cons_inv_1 in Hpre as ?. apply prefix_cons_inv_2 in Hpre.
    apply prefix_nil_inv in Hpre. by subst.
  - intros [Hc%negb_true_iff%bool_decide_eq_false Hrest]%andb_true_iff.
    destruct (IH _ Hrest) as (_ & Hend & Hfirst).
    rewrite <- app_assoc in Hend. repeat split; [done..|].
    intros [|c0 q] Hq Hpre Hsuf; [done|].
    apply prefix_cons_inv_1 in Hpre as ?. apply prefix_cons_inv_2 in Hpre. subst c0.
    destruct q as [|c1 q]; [done|].
    f_equal. apply Hfirst; [done..|]. by rewrite <- app_assoc.
Qed.

Lemma ends_at_last_is_payload payload :
  ends_at_last end_marker [] payload = true → is_payload payload.
Proof. intros Hc. by apply ends_at_last_spec in Hc. Qed.

Lemma write_to_contents (wrappers : list RecordWrapper) payloads destination :
  Forall2 (λ w payload, content w = Some payload) wrappers payloads →
  write_to wrappers destination = Return (destination ++ concat payloads).
Proof.
  intros Hall. revert destination.
  induction Hall as [|w payload wrappers payloads Hw _ IH]; intros destination.
  - simpl. by rewrite app_nil_r.
  - simpl. rewrite Hw, IH. by rewrite <- app_assoc.
Qed.

(** C1. For every ordered list of wrappers whose payloads can be reached
    (each a text in the payload format, whose hash is the wrapper's),
    [write] succeeds, what it writes is the payloads one after the other in
    the order given, and [read] of what was written returns as many
    wrappers with the same hashes in the same order, each with the payload
    it was written from. *)
Theorem read_write_round_trip (wrappers : list RecordWrapper) :
  Forall (has_content end_marker digest) wrappers →
  ∃ text,
    write wrappers = Return text ∧
    hash <$> read end_marker digest text = hash <$> wrappers ∧
    content <$> read end_marker digest text = content <$> wrappers.
Proof.
  intros Hall.
  assert (∃ payloads,
            Forall2 (λ w payload, content w = Some payload) wrappers payloads ∧
            Forall is_payload payloads ∧
            digest <$> payloads = hash <$> wrappers ∧
            Some <$> payloads = content <$> wrappers)
    as (payloads & Hcontents & Hformat & Hhash & Hsome).
  { induction Hall as [|w wrappers (payload & Hw & Hp & Hh) _ (payloads & ? & ? & ? & ?)].
    - by exists [].
    - exists (payload :: payloads).
      split; [by constructor|]. split; [by constructor|].
      rewrite !fmap_cons. split; congruence. }
  exists (concat payloads). split; [|split].
  - unfold write. by rewrite (write_to_contents wrappers payloads []).
  - unfold read. rewrite split_records_concat by done.
    rewrite <- Hhash, <- list_fmap_compose. done.
  - unfold read. rewrite split_records_concat by done.
    rewrite <- Hsome, <- list_fmap_compose. done.
Qed.
End Format.
End MultiRecordIO_facts.

(** * The code at work on the test data *)

(** Reading in the As file and then the Ga file gives the two databases of
    the fixture. *)
Lemma fixture_databases :
  (@ingest Fixture.files "potcar/As/POTCAR" empty_db).2 = Fixture.db_As ∧
  (@ingest Fixture.files "potcar/Ga/POTCAR" Fixture.db_As).2 = Fixture.db_As_Ga.
Proof. by vm_compute. Qed.

Lemma read_write_round_trip_witness :
  ∃ text,
    MultiRecordIO.write Fixture.wrappers = Return text ∧
    MultiRecordIO.hash <$> MultiRecordIO.read Fixture.end_marker Fixture.digest text
      = MultiRecordIO.hash <$> Fixture.wrappers ∧
    MultiRecordIO.content <$> MultiRecordIO.read Fixture.end_marker Fixture.digest text
      = MultiRecordIO.content <$> Fixture.wrappers.
Proof.
  apply (MultiRecordIO_facts.read_write_round_trip Fixture.end_marker Fixture.digest).
  repeat constructor.
  - exists Fixture.payload_Ga. repeat split.
    all: by apply (MultiRecordIO_facts.ends_at_last_is_payload Fixture.end_marker).
  - exists Fixture.payload_As. repeat split.
    all: by apply (MultiRecordIO_facts.ends_at_last_is_payload Fixture.end_marker).
Defined.


Lemma find_one_none_many_witness :
  (∃ n, find (N := PotcarDataNode) {["element" := "As"]} Fixture.db_As_Ga = Return n ∧
        n ∈ potcars Fixture.db_As_Ga ∧
        kwargs_match {["element" := "As"]} (node_attrs n) ∧
        ∀ n', n' ∈ potcars Fixture.db_As_Ga →
              kwargs_match {["element" := "As"]} (node_attrs n') → n' = n)
  ∧ find (N := PotcarDataNode) {["element" := "In"]} Fixture.db_As_Ga
    = Raise NotExistent
  ∧ find (N := PotcarDataNode) {["functional" := "PBE"]} Fixture.db_As_Ga
    = Raise MultipleObjectsError.
Proof.
  destruct (find_one_none_many (N := PotcarDataNode) {["element" := "As"]}
              Fixture.db_As_Ga) as (Hone & _ & _).
  destruct (find_one_none_many (N := PotcarDataNode) {["element" := "In"]}
              Fixture.db_As_Ga) as (_ & Hnone & _).
  destruct (find_one_none_many (N := PotcarDataNode) {["functional" := "PBE"]}
              Fixture.db_As_Ga) as (_ & _ & Hmany).
  split; [|split].
  - exact (Hone ltac:(by vm_compute)).
  - exact (Hnone ltac:(by vm_compute)).
  - exact (Hmany ltac:(vm_compute; lia)).
Defined.

Lemma hash_unique_db_As_data_only : hash_unique PotcarDataNode Fixture.db_As_data_only.
Proof.
  intros h. unfold query_by_attrs. simpl.
  rewrite filter_cons, filter_nil. case_decide; simpl; lia.
Defined.

Lemma store_fails_exactly_on_uniqueness_conflict_witness :
  (∃ msg, PotcarFileData.verify_unique Fixture.As_file_node Fixture.db_As
          = Raise (UniquenessError msg))
  ∧ (∃ msg, PotcarFileData.verify_unique Fixture.As_edited_file_node Fixture.db_As
            = Raise (UniquenessError msg))
  ∧ (∃ msg, PotcarData.store (mkNode None Fixture.As_attrs) Fixture.db_As
            = (Raise (UniquenessError msg), Fixture.db_As))
  ∧ PotcarData.store (mkNode None Fixture.Ga_attrs) Fixture.db_As
    = (Return (mkNode (Some 3) Fixture.Ga_attrs),
       db_add_potcar Fixture.db_As (mkNode (Some 3) Fixture.Ga_attrs))
  ∧ (∃ msg db1,
       PotcarFileData.store Fixture.As_edited_file_node Fixture.db_As_data_only
         = (Raise (UniquenessError msg), db1) ∧
       potcar_files db1 = potcar_files Fixture.db_As_data_only)
  ∧ (∃ db1, potcar_files db1 = potcar_files Fixture.db_As_data_only ∧
       PotcarFileData.store Fixture.As_file_node Fixture.db_As_data_only
         = (Return (mkFileNode (Some (next_pk db1)) Fixture.As_attrs
                      [("potcar/As/POTCAR", "potcar/As/POTCAR")]),
            db_add_potcar_file db1
              (mkFileNode (Some (next_pk db1)) Fixture.As_attrs
                 [("potcar/As/POTCAR", "potcar/As/POTCAR")]))).
Proof.
  destruct (store_fails_exactly_on_uniqueness_conflict Fixture.db_As)
    as (_ & Hfile & Hdata & _).
  destruct (store_fails_exactly_on_uniqueness_conflict Fixture.db_As_data_only)
    as (_ & _ & _ & Hstore).
  split; [|split; [|split; [|split; [|split]]]].
  - apply Hfile; [by vm_compute|]. left.
    exists (mkFileNode (Some 2) Fixture.As_attrs
              [("potcar/As/POTCAR", "potcar/As/POTCAR")]).
    split; [left | by vm_compute].
  - apply Hfile; [by vm_compute|]. right.
    exists (mkFileNode (Some 2) Fixture.As_attrs
              [("potcar/As/POTCAR", "potcar/As/POTCAR")]).
    split; [left|]. split; [by vm_compute|]. vm_compute. congruence.
  - apply Hdata; [by vm_compute|]. left.
    exists (mkNode (Some 1) Fixture.As_attrs). split; [left | by vm_compute].
  - apply Hdata; [by vm_compute|].
    intros [(r & Hr & Hm)|(r & Hr & Hm & _)];
      apply list_elem_of_singleton in Hr; subst r.
    + vm_compute in Hm. congruence.
    + destruct Hm as (Ht & _). vm_compute in Ht. congruence.
  - destruct (Hstore Fixture.As_edited_file_node ltac:(by vm_compute)
                hash_unique_db_As_data_only) as [Hfail _].
    apply Hfail. right. split.
    + intros (r & Hr & Hm). apply list_elem_of_singleton in Hr. subst r.
      vm_compute in Hm. congruence.
    + exists (mkNode (Some 1) Fixture.As_attrs).
      split; [left|]. split; [by vm_compute|]. vm_compute. congruence.
  - destruct (Hstore Fixture.As_file_node ltac:(by vm_compute)
                hash_unique_db_As_data_only) as [_ Hpass].
    apply Hpass.
    + intros [(r & Hr & _)|(r & Hr & _)]; by apply elem_of_nil in Hr.
    + intros [Hns _]. apply Hns. exists (mkNode (Some 1) Fixture.As_attrs).
      split; [left | by vm_compute].
Defined.


Lemma add_file_only_once_witness :
  (@PotcarFileData.add_file Fixture.files "copy/As/POTCAR" None Fixture.As_file_node
   = (Raise (AttributeError "Can only hold one POTCAR file"), Fixture.As_file_node))
  ∧ ∃ self',
      @PotcarFileData.add_file Fixture.files "potcar/As/POTCAR" None
        (mkFileNode None ∅ []) = (Return (), self') ∧
      _filelist self' = [("potcar/As/POTCAR", "potcar/As/POTCAR")] ∧
      md5 self' = Return "md5-As" ∧ title self' = Return "PAW_PBE As" ∧
      functional self' = Return "PBE" ∧ element self' = Return "As" ∧
      symbol self' = Return "As".
Proof.
  split.
  - by apply (@add_file_only_once Fixture.files "copy/As/POTCAR" None
                Fixture.As_file_node).
  - destruct (@add_file_only_once Fixture.files "potcar/As/POTCAR" None
                (mkFileNode None ∅ [])) as [_ Hempty].
    destruct (Hempty eq_refl "md5-As" (Fixture.potcar_single "As" "As") "PAW_PBE As")
      as (self' & Hadd & Hlist & Hmd5 & Ht & Hf & He & Hs & _);
      [by vm_compute..|].
    exists self'. by repeat split.
Defined.


Lemma try_grab_description_raises_TypeError_witness :
  @try_grab_description PotcarData_cls {["name" := "PBE"]} "desc" None empty_db
    = (Raise (TypeError "'NoneType' object is not iterable"), empty_db)
  ∧ @try_grab_description PotcarData_cls {["name" := "PBE"]} "desc"
      (Some "PBE potentials") empty_db
    = (Raise (TypeError "'NoneType' object is not iterable"), empty_db).
Proof.
  split.
  - apply (try_grab_description_raises_TypeError {["name" := "PBE"]} "desc" None "PBE").
    by vm_compute.
  - apply (try_grab_description_raises_TypeError {["name" := "PBE"]} "desc"
             (Some "PBE potentials") "PBE").
    by vm_compute.
Defined.

(** * Further properties of the storage code *)

(** ** [exists] and [find] *)

(** X1. [exists] answers False exactly when [find] raises NotExistent, and
    when it answers True [find] either returns a stored node that carries
    the attributes or raises MultipleObjectsError. *)
Theorem exists_iff_find {N : Type} `{PotcarMetadataMixin N}
    (kwargs : gmap string string) (db : Db) :
  (exists_ (N := N) kwargs db = false ↔ find (N := N) kwargs db = Raise NotExistent)
  ∧ (exists_ (N := N) kwargs db = true ↔
     (∃ n : N, find kwargs db = Return n ∧ n ∈ querybuild db ∧
               kwargs_match kwargs (get_attrs n))
     ∨ find (N := N) kwargs db = Raise MultipleObjectsError).
Proof.
  unfold exists_, find, QueryBuilder.one, QueryBuilder.count.
  rewrite bool_decide_eq_false, bool_decide_eq_true.
  destruct (query_by_attrs (N := N) kwargs db) as [|n [|n' rows]] eqn:E; simpl.
  - split; [split; [done | lia]|]. split; [lia|].
    intros [(n & ? & _)|?]; congruence.
  - split; [split; [lia | congruence]|]. split; [|lia]. intros _. left.
    exists n. split; [done|]. apply elem_of_query_by_attrs. rewrite E. left.
  - split; [split; [lia | congruence]|]. split; [|lia]. by right.
Qed.

(** X2. A query with no attribute selects every stored node of the class,
    and attributes added to a query only take rows away: every row selected
    by the larger set of attributes is selected by the smaller one. *)
Theorem query_by_attrs_monotone {N : Type} `{PotcarMetadataMixin N}
    (kwargs kwargs' : gmap string string) (db : Db) :
  query_by_attrs (N := N) ∅ db = querybuild db
  ∧ (kwargs ⊆ kwargs' →
     ∀ n : N, n ∈ query_by_attrs kwargs' db → n ∈ query_by_attrs kwargs db).
Proof.
  split.
  - unfold query_by_attrs. induction (querybuild db) as [|n rows IH]; [done|].
    rewrite filter_cons_True; [by rewrite IH|]. apply map_Forall_empty.
  - intros Hsub n. rewrite !elem_of_query_by_attrs. intros [Hin Hm].
    split; [done|]. intros k v Hk. apply Hm.
    by apply (lookup_weaken kwargs kwargs').
Qed.

(** ** The constructor of PotcarData *)

(** X3. [set_potcar_file_node] copies the five metadata attributes and
    nothing else: built from a file node that has all five, the PotcarData
    is not stored yet, has exactly these five attributes, each with the
    value of the file node, whatever else the file node carries. When the
    file node lacks one of the five, the constructor raises AttributeError. *)
Theorem set_potcar_file_node_copies_five (fn : PotcarFileDataNode) :
  ((∀ k, k ∈ PotcarData._meta_attrs → is_Some (file_attrs fn !! k)) →
     ∃ node, PotcarData.new fn = Return node ∧ node_pk node = None ∧
             dom (node_attrs node) = list_to_set PotcarData._meta_attrs ∧
             ∀ k, k ∈ PotcarData._meta_attrs →
                  node_attrs node !! k = file_attrs fn !! k)
  ∧ (∀ k, k ∈ PotcarData._meta_attrs → file_attrs fn !! k = None →
          ∃ msg, PotcarData.new fn = Raise (AttributeError msg)).
Proof.
  split.
  - intros Hall. destruct (PotcarData.new fn) as [node|e] eqn:Hnew.
    + exists node. apply PotcarData_new_Return in Hnew as (? & ? & ?). done.
    + exfalso. rewrite PotcarData_new_run in Hnew.
      unfold md5, title, functional, element, symbol, get_attr in Hnew.
      simpl in Hnew. unfold_M.
      destruct (Hall "md5") as [? E1]; [in_meta_attrs|]. rewrite E1 in Hnew.
      destruct (Hall "title") as [? E2]; [in_meta_attrs|]. rewrite E2 in Hnew.
      destruct (Hall "functional") as [? E3]; [in_meta_attrs|]. rewrite E3 in Hnew.
      destruct (Hall "element") as [? E4]; [in_meta_attrs|]. rewrite E4 in Hnew.
      destruct (Hall "symbol") as [? E5]; [in_meta_attrs|]. rewrite E5 in Hnew.
      done.
  - intros k Hin Hk. rewrite PotcarData_new_run.
    unfold md5, title, functional, element, symbol, get_attr. simpl. unfold_M.
    unfold PotcarData._meta_attrs in Hin.
    repeat (apply elem_of_cons in Hin as [->|Hin]);
      [..|by apply elem_of_nil in Hin];
      repeat (first [ rewrite Hk; eauto; fail
                    | match goal with
                      | |- context [file_attrs fn !! ?key] =>
                          destruct (file_attrs fn !! key) eqn:?; [|eauto]
                      end ]).
Qed.

(** ** Unique hashes *)

Lemma verify_unique_Return {N : Type} `{PotcarMetadataMixin N} (self : N) db :
  is_Return (verify_unique self db) = true →
  ∃ h, md5 self = Return h ∧ query_by_attrs (N := N) {["md5" := h]} db = [].
Proof.
  unfold verify_unique. unfold_M.
  destruct (md5 self) as [h|]; [|done].
  destruct (exists_ (N := N) {["md5" := h]} db) eqn:Hex; [done|].
  intros _. exists h. split; [done|]. by apply exists_false.
Qed.

Lemma hash_unique_add_potcar db (node : PotcarDataNode) h :
  md5 node = Return h →
  query_by_attrs (N := PotcarDataNode) {["md5" := h]} db = [] →
  hash_unique PotcarDataNode db →
  hash_unique PotcarDataNode (db_add_potcar db node).
Proof.
  intros Hh Hnone Huniq h'. rewrite query_by_attrs_potcars_add, length_app.
  case_decide as Hm; simpl; [|specialize (Huniq h'); lia].
  apply kwargs_match_md5 in Hm.
  change (get_attrs node !! "md5" = Some h') in Hm. apply md5_Return in Hm.
  assert (h' = h) as -> by congruence. rewrite Hnone. simpl. lia.
Qed.

Lemma hash_unique_add_potcar_file db (node : PotcarFileDataNode) h :
  md5 node = Return h →
  query_by_attrs (N := PotcarFileDataNode) {["md5" := h]} db = [] →
  hash_unique PotcarFileDataNode db →
  hash_unique PotcarFileDataNode (db_add_potcar_file db node).
Proof.
  intros Hh Hnone Huniq h'. rewrite query_by_attrs_files_add, length_app.
  case_decide as Hm; simpl; [|specialize (Huniq h'); lia].
  apply kwargs_match_md5 in Hm.
  change (get_attrs node !! "md5" = Some h') in Hm. apply md5_Return in Hm.
  assert (h' = h) as -> by congruence. rewrite Hnone. simpl. lia.
Qed.

Lemma PotcarData_store_hash_unique (self : PotcarDataNode) db r db' :
  PotcarData.store self db = (r, db') →
  db_hash_unique db → db_hash_unique db'.
Proof.
  rewrite PotcarData_store_run.
  destruct (verify_unique self db) as [[]|] eqn:Hv; [|by intros [= _ <-]].
  simpl. intros [= _ <-] [Hf Hp].
  assert (is_Return (verify_unique self db) = true) as Hr by by rewrite Hv.
  apply verify_unique_Return in Hr as (h & Hh & Hnone).
  split; [exact Hf|]. by apply (hash_unique_add_potcar db _ h).
Qed.

Lemma PotcarData_get_or_create_hash_unique (fn : PotcarFileDataNode) db r db' :
  PotcarData.get_or_create fn db = (r, db') →
  db_hash_unique db → db_hash_unique db'.
Proof.
  rewrite PotcarData_get_or_create_run.
  destruct (md5 fn) as [h|]; [|by intros [= _ <-]].
  destruct (exists_ {["md5" := h]} db).
  { destruct (find {["md5" := h]} db); by intros [= _ <-]. }
  destruct (PotcarData.new fn) as [node|]; [|by intros [= _ <-]].
  destruct (PotcarData.store node db) as [[?|?] db1] eqn:Hst;
    intros [= _ <-]; by apply (PotcarData_store_hash_unique _ _ _ _ Hst).
Qed.

Lemma PotcarFileData_store_hash_unique (self : PotcarFileDataNode) db r db' :
  PotcarFileData.store self db = (r, db') →
  db_hash_unique db → db_hash_unique db'.
Proof.
  rewrite PotcarFileData_store_run.
  destruct (PotcarData.get_or_create self db) as [[?|?] db1] eqn:Hg;
    [|intros [= _ <-]; by apply (PotcarData_get_or_create_hash_unique _ _ _ _ Hg)].
  intros Hst Huniq.
  apply (PotcarData_get_or_create_hash_unique _ _ _ _ Hg) in Huniq as [Hf Hp].
  destruct (PotcarFileData.verify_unique self db1) as [[]|] eqn:Hv;
    [|by injection Hst as _ <-].
  simpl in Hst. injection Hst as _ <-.
  assert (is_Return (verify_unique self db1) = true) as Hr.
  { destruct (PotcarFileData_verify_unique_mixin self db1) as [<- _]. by rewrite Hv. }
  apply verify_unique_Return in Hr as (h & Hh & Hnone).
  split; [|exact Hp]. by apply (hash_unique_add_potcar_file db1 _ h).
Qed.

Section HashUnique.
Context `{Files}.

Lemma PotcarFileData_get_or_create_hash_unique filepath db r db' :
  PotcarFileData.get_or_create filepath db = (r, db') →
  db_hash_unique db → db_hash_unique db'.
Proof.
  rewrite PotcarFileData_get_or_create_run.
  destruct (md5_file filepath) as [h|]; [|by intros [= _ <-]].
  destruct (exists_ {["md5" := h]} db).
  { destruct (find {["md5" := h]} db); by intros [= _ <-]. }
  destruct (PotcarFileData.new filepath) as [node|]; [|by intros [= _ <-]].
  destruct (PotcarFileData.store node db) as [[?|?] db1] eqn:Hst;
    intros [= _ <-]; by apply (PotcarFileData_store_hash_unique _ _ _ _ Hst).
Qed.

(** X4. Reading files in keeps hashes unique. On a database with at most
    one PotcarFileData and at most one PotcarData under any md5, whatever
    [store] and [get_or_create] of the two classes and [ingest] return or
    raise, the database they leave has the same property; and on such a
    database the lookup by md5 that [get_or_create] performs never raises
    MultipleObjectsError. *)
Theorem hash_unique_preserved (db : Db) :
  db_hash_unique db →
  (∀ self r db', PotcarData.store self db = (r, db') → db_hash_unique db')
  ∧ (∀ fn r db', PotcarData.get_or_create fn db = (r, db') → db_hash_unique db')
  ∧ (∀ self r db', PotcarFileData.store self db = (r, db') → db_hash_unique db')
  ∧ (∀ filepath r db',
       PotcarFileData.get_or_create filepath db = (r, db') → db_hash_unique db')
  ∧ (∀ filepath r db', ingest filepath db = (r, db') → db_hash_unique db')
  ∧ (∀ h, find (N := PotcarFileDataNode) {["md5" := h]} db
          ≠ Raise MultipleObjectsError)
  ∧ (∀ h, find (N := PotcarDataNode) {["md5" := h]} db
          ≠ Raise MultipleObjectsError).
Proof.
  intros Huniq.
  assert (Hfind : ∀ (N : Type) (mixin : PotcarMetadataMixin N) h,
            hash_unique N db →
            find (N := N) {["md5" := h]} db ≠ Raise MultipleObjectsError).
  { intros N mixin h HN. specialize (HN h). unfold find, QueryBuilder.one.
    destruct (query_by_attrs (N := N) {["md5" := h]} db) as [|? [|? ?]];
      simpl in *; (done || lia). }
  split; [|split; [|split; [|split; [|split; [|split]]]]].
  - intros self r db' Hst. by apply (PotcarData_store_hash_unique self db r db').
  - intros fn r db' Hg. by apply (PotcarData_get_or_create_hash_unique fn db r db').
  - intros self r db' Hst. by apply (PotcarFileData_store_hash_unique self db r db').
  - intros filepath r db' Hg.
    by apply (PotcarFileData_get_or_create_hash_unique filepath db r db').
  - intros filepath r db'. unfold ingest. unfold_M.
    destruct (PotcarFileData.get_or_create filepath db) as [[[fn fc]|] db1] eqn:Hf.
    + apply PotcarFileData_get_or_create_hash_unique in Hf; [|done].
      destruct (PotcarData.get_or_create fn db1) as [[[s sc]|] db2] eqn:Hs;
        intros [= _ <-]; by apply (PotcarData_get_or_create_hash_unique _ _ _ _ Hs).
    + intros [= _ <-].
      by apply (PotcarFileData_get_or_create_hash_unique _ _ _ _ Hf).
  - intros h. apply Hfind, Huniq.
  - intros h. apply Hfind, Huniq.
Qed.
End HashUnique.

(** ** A store that fails half way *)

(** X5. [PotcarFileData.store] creates the PotcarData before it checks the
    file node, and nothing is undone when that check fails: for a record
    that conflicts with a stored file node (same md5, or same metadata under
    another md5) while no stored PotcarData conflicts with it, the store
    raises UniquenessError and leaves behind a database with one more
    PotcarData, the one made from the rejected file node, and no more file
    node than before. *)
Theorem failed_store_keeps_new_shadow (self : PotcarFileDataNode) (db : Db) :
  is_record self →
  uniqueness_conflict self db →
  ¬ uniqueness_conflict (mkNode None (file_attrs self)) db →
  let shadow := mkNode (Some (next_pk db)) (file_attrs self) in
  ∃ msg,
    PotcarFileData.store self db
      = (Raise (UniquenessError msg), db_add_potcar db shadow) ∧
    potcars (db_add_potcar db shadow) = (potcars db ++ [shadow])%list ∧
    potcar_files (db_add_potcar db shadow) = potcar_files db.
Proof.
  intros Hrec Hfile Hshadow shadow.
  assert (is_record (mkNode None (file_attrs self))) as Hrec' by exact Hrec.
  destruct (is_record_lookup self "md5" Hrec) as [h Hh]; [in_meta_attrs|].
  assert (md5 self = Return h) as Hmd5 by by apply md5_Return.
  assert (md5 (mkNode None (file_attrs self)) = Return h) as Hmd5'
    by by apply (md5_Return (N := PotcarDataNode)).
  assert (exists_ (N := PotcarDataNode) {["md5" := h]} db = false) as Hex.
  { apply not_true_is_false. intros Hex. apply Hshadow. left.
    by apply (exists_md5_same_hash (mkNode None (file_attrs self)) db h). }
  assert (PotcarData.get_or_create self db = (Return (shadow, true), db_add_potcar db shadow))
    as Hg.
  { rewrite PotcarData_get_or_create_run, Hmd5, Hex.
    rewrite (PotcarData_new_record self Hrec), PotcarData_store_run.
    destruct (verify_unique_conflict (mkNode None (file_attrs self)) db Hrec')
      as [_ Hpass].
    by rewrite (Hpass Hshadow). }
  destruct (PotcarFileData_verify_unique_conflict self (db_add_potcar db shadow) Hrec)
    as [Hfail _].
  destruct Hfail as [msg Hmsg].
  { by apply (uniqueness_conflict_files_frame self db (db_add_potcar db shadow)). }
  exists msg. rewrite PotcarFileData_store_run, Hg, Hmsg. done.
Qed.

Section MoreOnFiles.
Context `{Files}.

(** X6. The path of a file does not matter, its md5 does: once
    [PotcarFileData.get_or_create] has returned a node for a file, calling
    it for any path whose file has the same md5 returns that same node with
    [created] False and leaves the database as it is. *)
Theorem get_or_create_same_md5_other_path filepath filepath' db node created db' :
  PotcarFileData.get_or_create filepath db = (Return (node, created), db') →
  md5_file filepath' = md5_file filepath →
  PotcarFileData.get_or_create filepath' db' = (Return (node, false), db').
Proof.
  intros Hg Hsame.
  apply PotcarFileData_get_or_create_Return in Hg as (h & Hh & Hq & _).
  apply (PotcarFileData_get_or_create_found filepath' db' h node); [congruence|done].
Qed.

(** X7. Two files with the same header and different content do not both
    get in. For a readable file with a TITEL, under whose md5 neither a
    PotcarFileData nor a PotcarData is stored, while a stored PotcarData has
    its title, functional, element and symbol: [ingest] raises
    UniquenessError and leaves the database as it is. The error is the one
    of the PotcarData, which is created first. *)
Theorem ingest_same_metadata_other_md5 filepath db h potcar titel
    (stored : PotcarDataNode) :
  md5_file filepath = Return h →
  PotcarSingle_from_file filepath = Return potcar →
  PotcarSingle.keywords potcar !! "TITEL" = Some titel →
  exists_ (N := PotcarFileDataNode) {["md5" := h]} db = false →
  exists_ (N := PotcarDataNode) {["md5" := h]} db = false →
  stored ∈ potcars db →
  title stored = Return titel →
  functional stored = Return (PotcarSingle.functional potcar) →
  element stored = Return (PotcarSingle.element potcar) →
  symbol stored = Return (PotcarSingle.symbol potcar) →
  ingest filepath db =
    (Raise (UniquenessError
       "A <class 'aiida_vasp.data.potcar.PotcarData'> node with these attributes but a different file exists."),
     db).
Proof.
  intros Hh Hp Ht Hexf Hexs Hin Stt Sf Se Ss.
  set (attrs := meta_dict h titel (PotcarSingle.functional potcar)
                  (PotcarSingle.element potcar) (PotcarSingle.symbol potcar)).
  set (fn := mkFileNode None attrs [(filepath, filepath)]).
  assert (PotcarFileData.new filepath = Return fn) as Hnew.
  { rewrite PotcarFileData_new_run, Hh. unfold_M. rewrite Hp. unfold getitem.
    by rewrite Ht. }
  destruct (meta_dict_lookup h titel (PotcarSingle.functional potcar)
              (PotcarSingle.element potcar) (PotcarSingle.symbol potcar))
    as (Mh & Mt & Mf & Me & Ms).
  fold attrs in Mh, Mt, Mf, Me, Ms.
  assert (is_record fn) as Hrec by apply meta_dict_dom.
  assert (md5 fn = Return h) as Hmd5 by by apply md5_Return.
  assert (verify_unique (mkNode None attrs) db =
            Raise (UniquenessError
              "A <class 'aiida_vasp.data.potcar.PotcarData'> node with these attributes but a different file exists."))
    as Hv.
  { unfold verify_unique, pop. unfold_M.
    assert (md5 (mkNode None attrs) = Return h) as -> by by apply md5_Return.
    rewrite Hexs. cbn [get_attrs PotcarData_mixin node_attrs]. rewrite Mh.
    assert (exists_ (N := PotcarDataNode) (delete "md5" attrs) db = true) as ->; [|done].
    apply exists_true. exists stored. split; [done|].
    change (kwargs_match (delete "md5" (get_attrs (mkNode None attrs)))
              (get_attrs stored)).
    apply (kwargs_match_other_attrs stored (mkNode None attrs)); [apply meta_dict_dom|].
    unfold same_metadata, title, functional, element, symbol in *.
    rewrite Stt, Sf, Se, Ss. unfold get_attr.
    cbn [get_attrs PotcarData_mixin node_attrs]. by rewrite Mt, Mf, Me, Ms. }
  unfold ingest. unfold_M.
  rewrite PotcarFileData_get_or_create_run, Hh, Hexf, Hnew.
  rewrite PotcarFileData_store_run, PotcarData_get_or_create_run, Hmd5, Hexs.
  rewrite (PotcarData_new_record fn Hrec), PotcarData_store_run.
  change (file_attrs fn) with attrs. by rewrite Hv.
Qed.

(** X8. A [PotcarFileData.get_or_create] that fails stores no file node,
    and it leaves the database untouched in every case but one. It raises
    what [md5_file] raises when the file cannot be read; MultipleObjectsError
    when more than one file node is stored under the md5; and, with no file
    node stored under the md5, what [PotcarSingle.from_file] raises when the
    file cannot be parsed, or KeyError('TITEL') when its header has no
    TITEL: in these four cases the database is as before. Whatever the
    failure, the file nodes and the links are as before, and the database is
    as before or has one more PotcarData: the one [node.store()] made from
    the new file node before the uniqueness check of the file node raised
    UniquenessError on a conflict among the stored file nodes. *)
Theorem get_or_create_failure_stores_no_file_node filepath db :
  (∀ e, md5_file filepath = Raise e →
        PotcarFileData.get_or_create filepath db = (Raise e, db))
  ∧ (∀ h, md5_file filepath = Return h →
          (1 < length (query_by_attrs (N := PotcarFileDataNode) {["md5" := h]} db))%nat →
          PotcarFileData.get_or_create filepath db = (Raise MultipleObjectsError, db))
  ∧ (∀ h e, md5_file filepath = Return h →
            exists_ (N := PotcarFileDataNode) {["md5" := h]} db = false →
            PotcarSingle_from_file filepath = Raise e →
            PotcarFileData.get_or_create filepath db = (Raise e, db))
  ∧ (∀ h potcar, md5_file filepath = Return h →
            exists_ (N := PotcarFileDataNode) {["md5" := h]} db = false →
            PotcarSingle_from_file filepath = Return potcar →
            PotcarSingle.keywords potcar !! "TITEL" = None →
            PotcarFileData.get_or_create filepath db = (Raise (KeyError "TITEL"), db))
  ∧ (∀ e db', PotcarFileData.get_or_create filepath db = (Raise e, db') →
       potcar_files db' = potcar_files db ∧ links db' = links db ∧
       (db' = db ∨
        ∃ fn msg,
          PotcarFileData.new filepath = Return fn ∧
          e = UniquenessError msg ∧
          uniqueness_conflict fn db ∧
          db' = db_add_potcar db (mkNode (Some (next_pk db)) (file_attrs fn)))).
Proof.
  split; [|split; [|split; [|split]]].
  - intros e He. by rewrite PotcarFileData_get_or_create_run, He.
  - intros h Hh Hmany. rewrite PotcarFileData_get_or_create_run, Hh.
    assert (exists_ (N := PotcarFileDataNode) {["md5" := h]} db = true) as ->.
    { unfold exists_, QueryBuilder.count. apply bool_decide_eq_true. lia. }
    unfold find, QueryBuilder.one.
    destruct (query_by_attrs (N := PotcarFileDataNode) {["md5" := h]} db)
      as [|? [|? ?]]; simpl in *; (done || lia).
  - intros h e Hh Hex Hp.
    rewrite PotcarFileData_get_or_create_run, Hh, Hex, PotcarFileData_new_run, Hh.
    unfold_M. by rewrite Hp.
  - intros h potcar Hh Hex Hp Ht.
    rewrite PotcarFileData_get_or_create_run, Hh, Hex, PotcarFileData_new_run, Hh.
    unfold_M. rewrite Hp. unfold getitem. by rewrite Ht.
  - intros e db'. rewrite PotcarFileData_get_or_create_run.
    destruct (md5_file filepath) as [h|]; [|intros [= _ <-]; auto].
    destruct (exists_ (N := PotcarFileDataNode) {["md5" := h]} db).
    { destruct (find (N := PotcarFileDataNode) {["md5" := h]} db);
        [done | intros [= _ <-]; auto]. }
    destruct (PotcarFileData.new filepath) as [fn|] eqn:Hnew;
      [|intros [= _ <-]; auto].
    apply PotcarFileData_new_Return in Hnew as (Hrec & _).
    rewrite PotcarFileData_store_run.
    destruct (PotcarData.get_or_create fn db) as [[[shadow created]|e0] db1] eqn:Hg.
    + destruct (PotcarFileData.verify_unique fn db1) as [[]|e1] eqn:Hv; [done|].
      intros [= <- <-].
      pose proof (PotcarData_get_or_create_frame _ _ _ _ Hg) as [Hfiles Hlinks].
      split; [done|]. split; [done|].
      apply PotcarFileData_verify_unique_Raise in Hv as [[msg ->] Hconflict]; [|done].
      apply (uniqueness_conflict_files_frame fn db db1 Hfiles) in Hconflict.
      apply PotcarData_get_or_create_Return in Hg as (h' & _ & _ & Hc).
      destruct created; [|by left]. right.
      destruct Hc as (_ & Hmade & Hpk & ->).
      rewrite (PotcarData_new_record fn Hrec) in Hmade. injection Hmade as Hattrs.
      exists fn, msg. repeat split; [done|]. f_equal.
      destruct shadow as [pk attrs]. simpl in *. by subst.
    + intros [= _ <-]. apply PotcarData_get_or_create_Raise in Hg as ->. auto.
Qed.
End MoreOnFiles.

(** ** The description callback, once more *)

(** X9. An empty description counts as none: the callback of [--desc]
    gives for [''] what it gives for [None]. And the family name is read
    from [ctx.params] first: without a ['name'] there the callback raises
    KeyError('name'), also when a description is given, and the database is
    not consulted. *)
Theorem try_grab_description_empty_and_unnamed `{PotcarDataCls}
    (ctx_params : gmap string string) (param : string) (value : option string)
    (db : Db) :
  try_grab_description ctx_params param (Some "") db
    = try_grab_description ctx_params param None db
  ∧ (ctx_params !! "name" = None →
     try_grab_description ctx_params param value db = (Raise (KeyError "name"), db)).
Proof.
  split; [done|]. intros Hname.
  unfold try_grab_description, getitem. unfold_M. by rewrite Hname.
Qed.

(** * INCAR files *)

Module Incar_facts.
Import Incar.

Section Numpy.
Context {real : Type} (format_real : real → string)
        (ndim : list (@Value real) → nat).

Abbreviation _incarify := (_incarify format_real ndim).
Abbreviation _incar_item := (_incar_item format_real ndim).
Abbreviation dict_to_incar := (dict_to_incar format_real ndim).
Abbreviation add_items := (add_items format_real ndim).
Abbreviation line_of := (line_of format_real ndim).
Abbreviation text_of := (text_of format_real ndim).

Lemma join_Some sep index (texts : list string) :
  join sep index (Some <$> texts) = Return (String.concat sep texts).
Proof.
  revert index. induction texts as [|s texts IH]; intros index; [done|].
  destruct texts as [|s' texts]; [done|].
  change (join sep index (Some <$> s :: s' :: texts))
    with (rest ← join sep (S index) (Some <$> s' :: texts);
          Return (s +:+ sep +:+ rest)).
  by rewrite IH.
Qed.

Lemma for_in_Return {A B} (f : A → Result B) items rs :
  Forall2 (λ i r, f i = Return r) items rs → for_in f items = Return rs.
Proof. induction 1 as [|i r items rs Hi _ IH]; simpl; [done|]. by rewrite Hi, IH. Qed.

Lemma for_in_Raise {A B} (f : A → Result B) items i e :
  i ∈ items → f i = Raise e → ∃ e', for_in f items = Raise e'.
Proof.
  intros Hin Hi. induction items as [|j items IH]; [by apply elem_of_nil in Hin|].
  simpl. destruct (f j) as [r|ej] eqn:Hj; [|eauto].
  apply elem_of_cons in Hin as [->|Hin]; [congruence|].
  destruct (IH Hin) as [e' ->]. eauto.
Qed.

Lemma incarify_row (row : list Z) :
  ndim (VInt <$> row) = 1%nat →
  _incarify (VSeq (VInt <$> row)) = Return (Some (row_text row)).
Proof.
  intros Hdim. cbn [Incar._incarify]. rewrite Hdim. simpl.
  rewrite (for_in_Return _ (VInt <$> row) (Some <$> (pretty <$> row))).
  - unfold_M. by rewrite join_Some.
  - clear Hdim. induction row as [|z row IH]; simpl; [constructor|].
    constructor; [done|exact IH].
Qed.

(** X10. Arrays are written row by row. A sequence of integers that numpy
    sees as one-dimensional becomes its numbers in decimal, separated by one
    blank; rows of integers that numpy sees as two-dimensional become one
    such line per row, with a newline between the rows and none after the
    last. *)
Theorem incarify_rows_of_integers (rows : list (list Z)) :
  (∀ row, ndim (VInt <$> row) = 1%nat →
          _incarify (VSeq (VInt <$> row)) = Return (Some (row_text row)))
  ∧ (ndim ((λ row, VSeq (VInt <$> row)) <$> rows) = 2%nat →
     (∀ row, row ∈ rows → ndim (VInt <$> row) = 1%nat) →
     _incarify (VSeq ((λ row, VSeq (VInt <$> row)) <$> rows))
       = Return (Some (String.concat (String "010" "") (row_text <$> rows)))).
Proof.
  split; [apply incarify_row|].
  intros Hdim Hrows. cbn [Incar._incarify]. rewrite Hdim. simpl.
  rewrite (for_in_Return _ _ (Some <$> (row_text <$> rows))).
  - unfold_M. by rewrite join_Some.
  - clear Hdim. induction rows as [|row rows IH]; simpl; [constructor|].
    constructor.
    + apply incarify_row, Hrows. left.
    + apply IH. intros r Hr. apply Hrows. by right.
Qed.

Lemma append_assoc (a b c : string) : (a +:+ b) +:+ c = a +:+ b +:+ c.
Proof.
  induction a as [|ch a IH]; [done|].
  change (String ch ((a +:+ b) +:+ c) = String ch (a +:+ b +:+ c)). by f_equal.
Qed.

Lemma append_empty_r (a : string) : a +:+ "" = a.
Proof.
  induction a as [|ch a IH]; [done|].
  change (String ch (a +:+ "") = String ch a). by f_equal.
Qed.

#[local] Instance item_le_total : Total (@item_le real).
Proof. intros a b. unfold item_le. apply String.leb_total. Qed.

Lemma add_items_Return items incar_content :
  Forall (λ item, is_Return (_incarify item.2) = true) items →
  add_items items incar_content
    = Return (incar_content +:+ String.concat "" (line_of <$> items)).
Proof.
  intros Hall. revert incar_content.
  induction Hall as [|[key value] items Hitem _ IH]; intros incar_content.
  - simpl. by rewrite append_empty_r.
  - simpl in Hitem. cbn [Incar.add_items]. unfold Incar._incar_item. unfold_M.
    destruct (_incarify value) as [r|] eqn:Hv; [|done].
    rewrite IH. f_equal. rewrite !append_assoc. f_equal.
    assert (line_of (key, value)
            = Incar.upper key +:+ " = " +:+ format_result r +:+ String "010" "")
      as Hline.
    { unfold Incar.line_of, Incar.text_of. cbn [fst snd]. by rewrite Hv. }
    rewrite fmap_cons, Hline.
    destruct items as [|item items].
    + cbn [fmap list_fmap String.concat]. by rewrite append_empty_r.
    + rewrite fmap_cons. cbn [String.concat]. by rewrite !append_assoc.
Qed.

Lemma add_items_Raise items incar_content item e :
  item ∈ items → _incarify item.2 = Raise e →
  ∃ e', add_items items incar_content = Raise e'.
Proof.
  intros Hin He. revert incar_content.
  induction items as [|[key value] items IH]; intros incar_content;
    [by apply elem_of_nil in Hin|].
  cbn [Incar.add_items]. unfold Incar._incar_item. unfold_M.
  destruct (_incarify value) as [r|e0] eqn:Hv; [|eauto].
  apply elem_of_cons in Hin as [->|Hin]; [simpl in He; congruence|].
  by apply IH.
Qed.

(** X11. [dict_to_incar] writes one line per key, in the order of the keys.
    The empty dictionary gives the empty text. When every value can be
    written, the text is the lines [KEY = text] of the items, each ended by
    a newline, the items being those of the dictionary put in ascending
    order of their keys as given (the key is put in upper case in the line
    only). *)
Theorem dict_to_incar_lines (incar_dict : gmap string (@Value real)) :
  dict_to_incar ∅ = Return ""
  ∧ ((∀ key value, incar_dict !! key = Some value →
                   is_Return (_incarify value) = true) →
     ∃ items,
       items ≡ₚ map_to_list incar_dict ∧
       Sorted item_le items ∧
       dict_to_incar incar_dict = Return (String.concat "" (line_of <$> items))).
Proof.
  split; [done|]. intros Hall.
  exists (sorted_items incar_dict). unfold sorted_items.
  split; [apply merge_sort_Permutation|].
  split; [apply (Sorted_merge_sort item_le)|].
  unfold Incar.dict_to_incar. rewrite add_items_Return; [done|].
  apply Forall_forall. intros [key value] Hin.
  apply Hall with key. apply elem_of_map_to_list.
  by rewrite <- (merge_sort_Permutation item_le (map_to_list incar_dict)).
Qed.

(** X12. One value that cannot be written makes the whole dictionary fail:
    when [_incarify] raises on the value of some key, [dict_to_incar]
    raises and returns no text, whatever the other values are. A sequence
    that numpy sees with more than two dimensions is such a value:
    [_incarify] raises TypeError on it. *)
Theorem dict_to_incar_one_bad_value (incar_dict : gmap string (@Value real))
    (key : string) (value : Value) :
  incar_dict !! key = Some value →
  (∀ e, _incarify value = Raise e → ∃ e', dict_to_incar incar_dict = Raise e')
  ∧ (∀ items, value = VSeq items → (2 < ndim items)%nat →
       _incarify value = Raise (TypeError "you are trying to input a more than 2-dimensional array to VASP.Not sure what to do...")
       ∧ ∃ e', dict_to_incar incar_dict = Raise e').
Proof.
  intros Hkey.
  assert (Hbad : ∀ e, _incarify value = Raise e →
                      ∃ e', dict_to_incar incar_dict = Raise e').
  { intros e He. unfold Incar.dict_to_incar.
    apply (add_items_Raise _ _ (key, value) e); [|done].
    unfold sorted_items.
    rewrite (merge_sort_Permutation item_le (map_to_list incar_dict)).
    by apply elem_of_map_to_list. }
  split; [exact Hbad|].
  intros items -> Hdim.
  assert (_incarify (VSeq items) = Raise (TypeError "you are trying to input a more than 2-dimensional array to VASP.Not sure what to do..."))
    as Hraise.
  { cbn [Incar._incarify]. simpl.
    rewrite decide_False by lia. rewrite decide_False by lia.
    by rewrite decide_True by lia. }
  split; [exact Hraise|]. by apply (Hbad _ Hraise).
Qed.

Lemma for_in_all_Return {A B} (f : A → Result B) items :
  (∀ i, i ∈ items → is_Return (f i) = true) →
  ∃ rs, for_in f items = Return rs ∧ Forall2 (λ i r, f i = Return r) items rs.
Proof.
  induction items as [|i items IH]; intros Hall; [by exists []|].
  destruct IH as (rs & Hrs & Hpair); [intros j Hj; apply Hall; by right|].
  pose proof (Hall i ltac:(left)) as Hi.
  destruct (f i) as [r|] eqn:Hfi; [|done].
  exists (r :: rs). split; [|by constructor].
  simpl. by rewrite Hfi, Hrs.
Qed.

Lemma join_None sep index (rs : list (option string)) :
  None ∈ rs → ∃ msg, join sep index rs = Raise (TypeError msg).
Proof.
  revert index. induction rs as [|r rs IH]; intros index Hin;
    [by apply elem_of_nil in Hin|].
  destruct r as [s|]; [|simpl; eauto].
  apply elem_of_cons in Hin as [?|Hin]; [done|].
  destruct rs as [|r' rs]; [by apply elem_of_nil in Hin|].
  change (join sep index (Some s :: r' :: rs))
    with (rest ← join sep (S index) (r' :: rs); Return (s +:+ sep +:+ rest)).
  destruct (IH (S index) Hin) as [msg ->]. simpl. eauto.
Qed.

(** X13. [None] is written or refused depending on where it stands. As the
    value of a key it is written as the text None: the line reads
    [KEY = None]. Inside a sequence that numpy sees as one-dimensional, and
    whose items can otherwise be written, joining the texts raises
    TypeError. *)
Theorem incarify_None (key : string) (items : list (@Value real)) :
  _incar_item key VNone = Return (upper key +:+ " = None")
  ∧ (ndim items = 1%nat → VNone ∈ items →
     (∀ i, i ∈ items → is_Return (_incarify i) = true) →
     ∃ msg, _incarify (VSeq items) = Raise (TypeError msg)).
Proof.
  split; [done|]. intros Hdim Hnone Hall.
  assert (∃ rs, for_in _incarify items = Return rs ∧ None ∈ rs) as (rs & Hrs & Hin).
  { destruct (for_in_all_Return _incarify items Hall) as (rs & Hrs & Hpair).
    exists rs. split; [done|].
    apply list_elem_of_lookup in Hnone as [n Hn].
    destruct (Forall2_lookup_l _ _ _ _ _ Hpair Hn) as (r & Hr & Hnone).
    simpl in Hnone. injection Hnone as <-.
    apply list_elem_of_lookup. eauto. }
  cbn [Incar._incarify]. simpl. rewrite decide_True by done. rewrite Hrs.
  destruct (join_None " " 0 rs Hin) as [msg Hmsg]. unfold_M. rewrite Hmsg. eauto.
Qed.
End Numpy.
End Incar_facts.

(** * The further properties on the test data *)

Lemma hash_unique_db_As : db_hash_unique Fixture.db_As.
Proof.
  split; intros h; unfold query_by_attrs; simpl;
    rewrite filter_cons, filter_nil; case_decide; simpl; lia.
Defined.

Lemma hash_unique_preserved_witness : db_hash_unique Fixture.db_As_Ga.
Proof.
  destruct (@hash_unique_preserved Fixture.files Fixture.db_As hash_unique_db_As)
    as (_ & _ & _ & _ & Hingest & _).
  apply (Hingest "potcar/Ga/POTCAR"
           (Return (mkNode (Some 3) Fixture.Ga_attrs, true, false))).
  by vm_compute.
Defined.

Lemma failed_store_keeps_new_shadow_witness :
  ∃ msg,
    PotcarFileData.store Fixture.As_edited_file_node Fixture.db_As_file_only
    = (Raise (UniquenessError msg),
       db_add_potcar Fixture.db_As_file_only
         (mkNode (Some 3) (file_attrs Fixture.As_edited_file_node))).
Proof.
  destruct (failed_store_keeps_new_shadow Fixture.As_edited_file_node
              Fixture.db_As_file_only) as (msg & Hstore & _).
  - by vm_compute.
  - right. exists (mkFileNode (Some 2) Fixture.As_attrs
                     [("potcar/As/POTCAR", "potcar/As/POTCAR")]).
    split; [left|]. split; [by vm_compute|]. vm_compute. congruence.
  - intros [(r & Hr & _)|(r & Hr & _)]; by apply elem_of_nil in Hr.
  - exists msg. exact Hstore.
Defined.

Lemma get_or_create_same_md5_other_path_witness :
  @PotcarFileData.get_or_create Fixture.files "copy/As/POTCAR" Fixture.db_As
  = (Return (mkFileNode (Some 2) Fixture.As_attrs
               [("potcar/As/POTCAR", "potcar/As/POTCAR")], false),
     Fixture.db_As).
Proof.
  apply (@get_or_create_same_md5_other_path Fixture.files
           "potcar/As/POTCAR" "copy/As/POTCAR" empty_db _ true Fixture.db_As);
    by vm_compute.
Defined.

Lemma ingest_same_metadata_other_md5_witness :
  @ingest Fixture.files "edited/As/POTCAR" Fixture.db_As
  = (Raise (UniquenessError
       "A <class 'aiida_vasp.data.potcar.PotcarData'> node with these attributes but a different file exists."),
     Fixture.db_As).
Proof.
  apply (@ingest_same_metadata_other_md5 Fixture.files "edited/As/POTCAR"
           Fixture.db_As "md5-As-edited" (Fixture.potcar_single "As" "As")
           "PAW_PBE As" (mkNode (Some 1) Fixture.As_attrs));
    try (by vm_compute).
  left.
Defined.

Lemma set_potcar_file_node_copies_five_witness :
  ∃ node, PotcarData.new Fixture.As_file_node = Return node ∧
          node_pk node = None ∧
          dom (node_attrs node) = list_to_set PotcarData._meta_attrs.
Proof.
  destruct (set_potcar_file_node_copies_five Fixture.As_file_node) as [Hall _].
  destruct Hall as (node & Hnew & Hpk & Hdom & _).
  - intros k Hk. unfold PotcarData._meta_attrs in Hk.
    repeat (apply elem_of_cons in Hk as [->|Hk]); [vm_compute; eauto..|].
    by apply elem_of_nil in Hk.
  - by exists node.
Defined.

Lemma get_or_create_failure_stores_no_file_node_witness :
  @PotcarFileData.get_or_create Fixture.files "potcar/Sb/POTCAR" Fixture.db_As
    = (Raise (IOError "potcar/Sb/POTCAR"), Fixture.db_As)
  ∧ ∃ msg db',
      @PotcarFileData.get_or_create Fixture.files "edited/As/POTCAR"
        Fixture.db_As_file_only = (Raise (UniquenessError msg), db') ∧
      potcar_files db' = potcar_files Fixture.db_As_file_only ∧
      potcars db' = [mkNode (Some 3) (file_attrs Fixture.As_edited_file_node)].
Proof.
  split.
  - destruct (@get_or_create_failure_stores_no_file_node Fixture.files
                "potcar/Sb/POTCAR" Fixture.db_As) as (Hread & _).
    apply Hread. by vm_compute.
  - destruct (@get_or_create_failure_stores_no_file_node Fixture.files
                "edited/As/POTCAR" Fixture.db_As_file_only) as (_ & _ & _ & _ & Hfail).
    assert (@PotcarFileData.get_or_create Fixture.files "edited/As/POTCAR"
              Fixture.db_As_file_only
            = (Raise (UniquenessError
                 "A PotcarFileData with these attributes but a different file exists."),
               db_add_potcar Fixture.db_As_file_only
                 (mkNode (Some 3) (file_attrs Fixture.As_edited_file_node)))) as E
      by by vm_compute.
    destruct (Hfail _ _ E) as (Hfiles & _ & _).
    eexists _, _. split; [exact E|]. split; [exact Hfiles | done].
Defined.

Lemma incarify_rows_of_integers_witness :
  Incar._incarify id Incar_fixture.ndim
    (Incar.VSeq [Incar.VSeq [Incar.VInt 0; Incar.VInt 1];
                 Incar.VSeq [Incar.VInt 2; Incar.VInt 3]])
  = Return (Some (String.concat (String "010" "") ["0 1"; "2 3"])).
Proof.
  destruct (Incar_facts.incarify_rows_of_integers id Incar_fixture.ndim
              [[0; 1]; [2; 3]]%Z) as [_ Hrows].
  apply Hrows; [done|].
  intros row Hrow. repeat (apply elem_of_cons in Hrow as [->|Hrow]); [done..|].
  by apply elem_of_nil in Hrow.
Defined.

Lemma dict_to_incar_one_bad_value_witness :
  ∃ e, Incar.dict_to_incar id Incar_fixture.ndim
         (<["x" := Incar_fixture.cube]> Incar_fixture.incar_dict) = Raise e.
Proof.
  destruct (Incar_facts.dict_to_incar_one_bad_value id Incar_fixture.ndim
              (<["x" := Incar_fixture.cube]> Incar_fixture.incar_dict)
              "x" Incar_fixture.cube) as [_ Hdim]; [by vm_compute|].
  destruct (Hdim [Incar.VSeq [Incar.VSeq [Incar.VInt 1]]] eq_refl) as [_ Hraise];
    [vm_compute; lia|].
  exact Hraise.
Defined.
